(** * The policy-gated command executor of [src/tools/command_executor.py]

    A shallow embedding of the class [CommandExecutor] (and of the few lines
    of [CommandHandler.__init__] that build it), followed by the properties
    the specification states about it.

    Conventions of the embedding.
    - A Python [str] is a Rocq [string].  [strip] and [lower] are Python's
      [str.strip()] and [str.lower()] on code points below 128; literals
      with Chinese text are kept as their UTF-8 bytes.
    - A Python dict with a fixed set of keys is a record; the registry
      [background_tasks] is a finite map keyed by the task id.  A task is a
      mutable object shared by the registry and by its watchdog thread, so
      task objects live in a store and the registry holds references.
    - [time.time()] is read from a clock oracle, in whole microseconds.
    - The operating system is an oracle telling how a spawned process
      behaves: when it ends, what it wrote and whether that can be decoded,
      and how long its descendants hold its pipes.  The process is the one
      [Popen] creates, the shell under [shell=True].  What the executor
      does to processes, to callbacks and to the log is recorded in a
      trace of events. *)

From Stdlib Require Import ZArith List Bool Ascii String Lia.
From Stdlib Require Import DecimalString DecimalZ.
From stdpp Require Import base option list gmap strings.

Import ListNotations.
Local Open Scope string_scope.
Local Open Scope Z_scope.

(** ** Python strings *)

Module PyStr.

(** [str.isspace] on one ASCII character: TAB, LF, VT, FF, CR, the four
    separators FS GS RS US, and the space. *)
Definition isspace (a : ascii) : bool :=
  let n := nat_of_ascii a in
  ((9 <=? n)%nat && (n <=? 13)%nat) || ((28 <=? n)%nat && (n <=? 32)%nat).

Fixpoint lstrip (s : string) : string :=
  match s with
  | EmptyString => EmptyString
  | String a s' => if isspace a then lstrip s' else s
  end.

Fixpoint rstrip (s : string) : string :=
  match s with
  | EmptyString => EmptyString
  | String a s' =>
      match rstrip s' with
      | EmptyString => if isspace a then EmptyString else String a EmptyString
      | r => String a r
      end
  end.

(** [s.strip()] *)
Definition strip (s : string) : string := rstrip (lstrip s).

Definition lower_ascii (a : ascii) : ascii :=
  let n := nat_of_ascii a in
  if ((65 <=? n)%nat && (n <=? 90)%nat) then ascii_of_nat (n + 32) else a.

(** [s.lower()] *)
Fixpoint lower (s : string) : string :=
  match s with
  | EmptyString => EmptyString
  | String a s' => String (lower_ascii a) (lower s')
  end.

(** [s.startswith(p)] *)
Definition startswith (s p : string) : bool := String.prefix p s.

(** [str(n)] for an [int] *)
Definition str_of_int (n : Z) : string := NilZero.string_of_int (Z.to_int n).

End PyStr.

Import PyStr.

(** ** Data model *)

(** The environment mapping of a process ([os.environ], or the [env]
    argument). *)
Definition Env : Type := list (string * string).

(** The dicts returned by [execute_command] and stored in [task["result"]]:
    - [Completed]: [{"success": True, "stdout", "stderr", "return_code",
      "command", "timeout", "background"}];
    - [Submitted]: [{"success": True, "task_id", "command", "timeout",
      "background": True}];
    - [Error]: [{"error": msg}], which has no ["success"] key. *)
Inductive Result : Type :=
| Completed (stdout stderr : string) (return_code : Z)
            (command : string) (timeout : Z) (background : bool)
| Submitted (task_id command : string) (timeout : Z)
| Error (error : string).

(** [result.get("success")] *)
Definition get_success (r : Result) : option bool :=
  match r with
  | Completed _ _ _ _ _ _ => Some true
  | Submitted _ _ _ => Some true
  | Error _ => None
  end.

(** The truth value of [result.get("success")], as the callers test it
    ([if result.get("success"):]). *)
Definition success (r : Result) : bool :=
  match get_success r with
  | Some b => b
  | None => false
  end.

(** [result.get("error")] *)
Definition get_error (r : Result) : option string :=
  match r with
  | Error e => Some e
  | _ => None
  end.

(** How a spawned process behaves.  Time is counted in tenths of a second
    from the spawn, the period of the watchdog's [time.sleep(0.1)].  The
    process is the one [Popen] creates: under [shell=True] it is the
    shell, and the command may be a descendant of it.  [terminate()] and
    [kill()] reach the process, not its descendants. *)
Record Process : Type := ProcessOf {
  exit_time : option nat;      (* when it exits by itself; [None]: never *)
  p_stdout : string;
  p_stderr : string;
  p_returncode : Z;            (* exit status of a natural exit *)
  obeys_terminate : bool;      (* [terminate()] ends it within the wait *)
  term_returncode : Z;         (* exit status when ended by a signal *)
  output_error : option string;
    (* [Some e]: the output cannot be decoded as text, and reading it
       raises [UnicodeDecodeError] with [str] e *)
  descendants_exit : option nat
    (* when the last descendant holding the pipes of the process ends;
       [Some 0]: no descendant holds them; [None]: never *)
}.

(** A process on its own (no descendant holds its pipes) whose output
    can be decoded. *)
Definition mkProcess (exit_time : option nat) (stdout stderr : string)
    (returncode : Z) (obeys_terminate : bool) (term_returncode : Z)
  : Process :=
  ProcessOf exit_time stdout stderr returncode obeys_terminate
            term_returncode None (Some 0%nat).


(** [process.poll() is not None] at time [now]. *)
Definition exited (p : Process) (now : nat) : bool :=
  match exit_time p with
  | Some e => (e <=? now)%nat
  | None => false
  end.

Record SpawnArgs : Type := mkSpawnArgs {
  sa_command : string;
  sa_shell : bool;
  sa_cwd : string;
  sa_env : Env
}.

Inductive SpawnOutcome : Type :=
| Spawned (p : Process)
| SpawnRaises (msg : string).     (* [OSError] and the like, with [str(e)] *)

(** The operating system, as the executor sees it. *)
Record OS : Type := OSOf {
  os_environ : Env;                      (* [os.environ] *)
  os_spawn : SpawnArgs -> SpawnOutcome;  (* what [Popen] meets *)
  os_timeout_limit : Z;
    (* the least timeout, in seconds, that the wait inside
       [communicate(timeout=...)] refuses with [OverflowError] *)
  os_timeout_error : string              (* the [str] of that error *)
}.

(** An operating system whose waits are made with [poll()]: the timeout
    is a C [int] of milliseconds, so 2147484 seconds are too many. *)
Definition mkOS (environ : Env) (spawn : SpawnArgs -> SpawnOutcome) : OS :=
  OSOf environ spawn 2147484 "timeout is too large".

(** A completion callback: it returns, or raises an exception whose
    [str] is the message. *)
Inductive CallOutcome : Type :=
| Returns
| Raises (msg : string).

Definition Callback : Type := Result -> CallOutcome.

Inductive LogLevel : Type := INFO | WARNING | ERROR.

(** What the executor does to the outside, in order. *)
Inductive Event : Type :=
| EvSpawn (command : string)     (* a process is created *)
| EvPoll                         (* [process.poll()] *)
| EvSleep                        (* [time.sleep(0.1)] *)
| EvTerminate                    (* [process.terminate()] is called *)
| EvWait                         (* [process.wait(...)] is called *)
| EvKill                         (* [process.kill()] is called *)
| EvCommunicate                  (* [process.communicate(...)] is called *)
| EvSetResult (r : Result)       (* [task["result"] = r] *)
| EvSetRunning (b : bool)        (* [task["running"] = b] *)
| EvCallback (r : Result)        (* [task["callback"](r)] *)
| EvStartThread (addr : nat)     (* [thread.start()] for the task there *)
| EvLog (level : LogLevel) (msg : string).

Definition is_spawn (e : Event) : bool :=
  match e with EvSpawn _ => true | _ => false end.
Definition is_kill (e : Event) : bool :=
  match e with EvKill => true | _ => false end.
Definition is_terminate (e : Event) : bool :=
  match e with EvTerminate => true | _ => false end.
Definition is_set_result (e : Event) : bool :=
  match e with EvSetResult _ => true | _ => false end.
Definition is_callback (e : Event) : bool :=
  match e with EvCallback _ => true | _ => false end.
Definition is_log (e : Event) : bool :=
  match e with EvLog _ _ => true | _ => false end.

(** The number of events of a kind in a trace. *)
Definition count (f : Event -> bool) (tr : list Event) : nat :=
  List.length (List.filter f tr).

(** A background task, the dict built by [_execute_background]. *)
Record Task : Type := mkTask {
  t_id : string;
  t_command : string;
  t_start_time : Z;
  t_timeout : Z;
  t_cwd : string;
  t_env : Env;
  t_shell : bool;
  t_running : bool;
  t_result : option Result;
  t_process : option Process;
  t_callback : option Callback
}.

Definition set_process (p : Process) (t : Task) : Task :=
  mkTask (t_id t) (t_command t) (t_start_time t) (t_timeout t) (t_cwd t)
         (t_env t) (t_shell t) (t_running t) (t_result t) (Some p)
         (t_callback t).

Definition set_result (r : Result) (t : Task) : Task :=
  mkTask (t_id t) (t_command t) (t_start_time t) (t_timeout t) (t_cwd t)
         (t_env t) (t_shell t) (t_running t) (Some r) (t_process t)
         (t_callback t).

Definition set_running (b : bool) (t : Task) : Task :=
  mkTask (t_id t) (t_command t) (t_start_time t) (t_timeout t) (t_cwd t)
         (t_env t) (t_shell t) b (t_result t) (t_process t)
         (t_callback t).

(** An entry of [command_history]. *)
Record HistoryEntry : Type := mkEntry {
  h_command : string;
  h_time : Z;
  h_cwd : string
}.

(** The attributes of a [CommandExecutor].  [background_tasks] maps a task
    id to the address of the task object in the store. *)
Record CommandExecutor : Type := mkExecutor {
  timeout : Z;
  allowed_commands : option (list string);
  blocked_commands : list string;
  current_dir : string;
  command_history : list HistoryEntry;
  max_history : Z;
  background_tasks : gmap string nat
}.

(** The executor together with what it shares with its threads and with
    the outside: the store of task objects, the next free address, the
    number of clock readings made so far, and the trace. *)
Record World : Type := mkWorld {
  self : CommandExecutor;
  store : gmap nat Task;
  next_addr : nat;
  reads : nat;
  trace : list Event
}.

(** The clock: [clock k] is what the [k]-th call of [time.time()] made by
    the methods of the executor shows, in microseconds.  The readings of
    a watchdog thread are not among them: its time is counted in the
    tenths of a second of its own loop. *)
Definition Clock : Type := nat -> Z.

(** [x or y] on an optional list: [None] and [[]] are false. *)
Definition list_or {A} (x : option (list A)) (y : list A) : list A :=
  match x with
  | Some (a :: l) => a :: l
  | _ => y
  end.

(** [x or y] on an optional [int]: [None] and [0] are false. *)
Definition int_or (x : option Z) (y : Z) : Z :=
  match x with
  | Some v => if v =? 0 then y else v
  | None => y
  end.

(** [x or y] on an optional [str]: [None] and the empty string are false. *)
Definition str_or (x : option string) (y : string) : string :=
  match x with
  | Some (String a s) => String a s
  | _ => y
  end.

(** [env or os.environ]: [None] and the empty dict are false. *)
Definition env_or (x : option Env) (y : Env) : Env := list_or x y.

(** [CommandExecutor.__init__]; [cwd] is what [os.getcwd()] returns. *)
Definition __init__ (timeout : option Z)
    (allowed_commands blocked_commands : option (list string))
    (cwd : string) : CommandExecutor :=
  mkExecutor (default 30 timeout) allowed_commands
             (list_or blocked_commands []) cwd [] 100 ∅.

Definition new_world (ex : CommandExecutor) : World :=
  mkWorld ex ∅ 0 0 [].

(** ** CommandPolicy: [_is_command_allowed] *)

(** [if self.allowed_commands:] is taken for a list that is there and not
    empty. *)
Definition allow_list_configured (ex : CommandExecutor) : bool :=
  match allowed_commands ex with
  | Some (_ :: _) => true
  | _ => false
  end.

(** The first loop: does the trimmed command start with an entry of the
    allow-list? *)
Definition in_allow_list (ex : CommandExecutor) (command : string) : bool :=
  existsb (fun allowed_cmd => startswith (strip command) allowed_cmd)
          (default [] (allowed_commands ex)).

(** The second loop: does the trimmed, lower-cased command start with a
    lower-cased entry of the block-list? *)
Definition in_block_list (ex : CommandExecutor) (command : string) : bool :=
  existsb (fun blocked_cmd =>
             startswith (lower (strip command)) (lower blocked_cmd))
          (blocked_commands ex).

(** The method, with the warning it logs when it refuses. *)
Definition _is_command_allowed (ex : CommandExecutor) (command : string)
  : list Event * bool :=
  if allow_list_configured ex && negb (in_allow_list ex command) then
    ([EvLog WARNING ("命令不在允许列表中: " ++ command)], false)
  else if in_block_list ex command then
    ([EvLog WARNING ("命令被禁止执行: " ++ command)], false)
  else ([], true).

(** The decision alone (the spec's [CommandPolicy.isAllowed]). *)
Definition isAllowed (ex : CommandExecutor) (command : string) : bool :=
  snd (_is_command_allowed ex command).

(** ** CommandHistory: [_add_to_history], [get_command_history] *)

(** [l.pop(0)] on a list that is not empty. *)
Definition pop0 {A} (l : list A) : list A := List.tl l.

(** [l[-count:]]: the start index [-count] counts from the end when it is
    negative, and is clipped to the list. *)
Definition slice_from_minus {A} (l : list A) (count : Z) : list A :=
  let len := Z.of_nat (List.length l) in
  let start := - count in
  let start := if start <? 0 then Z.max (start + len) 0
               else Z.min start len in
  List.skipn (Z.to_nat start) l.

Definition with_history (h : list HistoryEntry) (ex : CommandExecutor)
  : CommandExecutor :=
  mkExecutor (timeout ex) (allowed_commands ex) (blocked_commands ex)
             (current_dir ex) h (max_history ex) (background_tasks ex).

Definition with_tasks (m : gmap string nat) (ex : CommandExecutor)
  : CommandExecutor :=
  mkExecutor (timeout ex) (allowed_commands ex) (blocked_commands ex)
             (current_dir ex) (command_history ex) (max_history ex) m.

(** [_add_to_history]; [now] is what [time.time()] shows. *)
Definition _add_to_history (ex : CommandExecutor) (command : string)
    (now : Z) : CommandExecutor :=
  let h :=
    (command_history ex ++ [mkEntry command now (current_dir ex)])%list in
  let h := if Z.of_nat (List.length h) >? max_history ex then pop0 h
           else h in
  with_history h ex.

Definition get_command_history (ex : CommandExecutor) (count : Z)
  : list HistoryEntry :=
  slice_from_minus (command_history ex) count.

Definition clear_command_history (ex : CommandExecutor)
  : CommandExecutor * nat :=
  (with_history [] ex, List.length (command_history ex)).

(** ** The executor built by [CommandHandler.__init__] *)

(** The part of the settings dict the handler reads:
    [settings["tools"]], when there, with its optional keys. *)
Record ToolsSettings : Type := mkTools {
  ts_timeout : option Z;
  ts_allowed_commands : option (option (list string));
  ts_blocked_commands : option (option (list string))
}.

Definition default_blocked_commands : list string :=
  ["rm -rf /"; "del /f /s /q"].

(** [settings.get("tools", {})] *)
Definition get_tools (tools : option ToolsSettings) : ToolsSettings :=
  default (mkTools None None None) tools.

(** Lines 57 to 65 of [command_handler.py]. *)
Definition handler_command_executor (tools : option ToolsSettings)
    (cwd : string) : CommandExecutor :=
  let command_timeout := default 30 (ts_timeout (get_tools tools)) in
  let allowed_commands :=
    default None (ts_allowed_commands (get_tools tools)) in
  let blocked_commands :=
    default (Some default_blocked_commands)
            (ts_blocked_commands (get_tools tools)) in
  __init__ (Some command_timeout) allowed_commands blocked_commands cwd.

(** ** Code that runs on a task and may raise *)

(** How a computation ends: it returns a value, it raises an exception
    (kept as its [str]), or it waits for ever in a call that does not
    return. *)
Inductive Outcome (A : Type) : Type :=
| Done (a : A)
| Raised (e : string)
| Blocked.

Arguments Done {A} a.
Arguments Raised {A} e.
Arguments Blocked {A}.

(** A computation of the watchdog thread: it reads and writes its task
    object, leaves events, and ends in one of the three ways; when it is
    blocked, the task and the events are those reached so far. *)
Definition Thread (A : Type) : Type :=
  Task -> list Event * Task * Outcome A.

#[export] Instance thread_ret : MRet Thread :=
  fun A a t => ([], t, Done a).

#[export] Instance thread_bind : MBind Thread :=
  fun A B k m t =>
    match m t with
    | (tr, t', Raised e) => (tr, t', Raised e)
    | (tr, t', Blocked) => (tr, t', Blocked)
    | (tr, t', Done a) =>
        match k a t' with
        | (tr2, t'', r) => ((tr ++ tr2)%list, t'', r)
        end
    end.

Definition raise {A} (e : string) : Thread A :=
  fun t => ([], t, Raised e).

Definition emit (ev : Event) : Thread unit :=
  fun t => ([ev], t, Done tt).

Definition update (f : Task -> Task) : Thread unit :=
  fun t => ([], f t, Done tt).

Definition read {A} (f : Task -> A) : Thread A :=
  fun t => ([], t, Done (f t)).

(** [try: body  except Exception as e: handler(str(e))] *)
Definition try_except {A} (body : Thread A) (handler : string -> Thread A)
  : Thread A :=
  fun t =>
    match body t with
    | (tr, t', Raised e) =>
        match handler e t' with
        | (tr2, t'', r) => ((tr ++ tr2)%list, t'', r)
        end
    | done => done
    end.

(** ** TaskWatchdog: [_execute_background_task] *)

(** [subprocess.Popen(task["command"], shell=task["shell"], ...)] *)
Definition Popen (os : OS) : Thread Process :=
  fun t =>
    match os_spawn os (mkSpawnArgs (t_command t) (t_shell t) (t_cwd t)
                                   (t_env t)) with
    | Spawned p => ([EvSpawn (t_command t)], t, Done p)
    | SpawnRaises e => ([], t, Raised e)
    end.

(** The polling loop.  Its [k]-th turn starts [k] tenths of a second after
    the spawn; [fuel] is the number of turns for which
    [time.time() - start_time < task["timeout"]] still holds.  The value is
    the time at which the loop is left. *)
Fixpoint wait_loop (p : Process) (fuel now : nat) : Thread nat :=
  match fuel with
  | O => mret now
  | S fuel' =>
      emit EvPoll ;;
      if exited p now then mret now
      else emit EvSleep ;; wait_loop p fuel' (S now)
  end.

(** The turns a timeout of [timeout] seconds allows. *)
Definition turns (timeout : Z) : nat := Z.to_nat (10 * timeout).

(** The five seconds of [process.wait(timeout=5)], in tenths. *)
Definition grace : nat := 50.

(** Is the process gone when the wait that follows [terminate()] at time
    [now] ends? *)
Definition gone_after_terminate (p : Process) (now : nat) : bool :=
  obeys_terminate p || exited p (now + grace).

(** [process.terminate(); process.wait(timeout=5)]; the wait raises
    [TimeoutExpired] when the process is still there. *)
Definition terminate_and_wait (p : Process) (now : nat) : Thread unit :=
  emit EvTerminate ;;
  emit EvWait ;;
  command ← read t_command ;
  if gone_after_terminate p now then mret tt
  else raise ("Command '" ++ command ++ "' timed out after 5 seconds").

(** [process.returncode] once the process is reaped. *)
Definition returncode (p : Process) (now : nat) : Z :=
  if exited p now then p_returncode p
  else if obeys_terminate p then term_returncode p
  else p_returncode p.

(** [if task["callback"]: task["callback"](r)] *)
Definition invoke_callback (r : Result) : Thread unit :=
  fun t =>
    match t_callback t with
    | Some cb =>
        match cb r with
        | Returns => ([EvCallback r], t, Done tt)
        | Raises e => ([EvCallback r], t, Raised e)
        end
    | None => ([], t, Done tt)
    end.

(** [process.communicate()] on a process that has ended.  The call has no
    timeout: it returns the output once every descendant that holds the
    pipes has ended too, and waits for ever if one never ends; it raises
    when the output cannot be decoded. *)
Definition communicate (p : Process) : Thread (string * string) :=
  fun t =>
    match descendants_exit p with
    | None => ([EvCommunicate], t, Blocked)
    | Some _ =>
        match output_error p with
        | Some e => ([EvCommunicate], t, Raised e)
        | None => ([EvCommunicate], t, Done (p_stdout p, p_stderr p))
        end
    end.

(** The body of the [try]. *)
Definition watchdog_body (os : OS) : Thread unit :=
  process ← Popen os ;
  update (set_process process) ;;
  timeout ← read t_timeout ;
  now ← wait_loop process (turns timeout) 0 ;
  emit EvPoll ;;
  (if exited process now then mret tt
   else terminate_and_wait process now) ;;
  output ← communicate process ;
  command ← read t_command ;
  let r := Completed output.1 output.2
                     (returncode process now) command timeout true in
  update (set_result r) ;; emit (EvSetResult r) ;;
  update (set_running false) ;; emit (EvSetRunning false) ;;
  invoke_callback r ;;
  id ← read t_id ;
  emit (EvLog INFO ("后台任务完成: " ++ id ++ " - " ++ command)).

(** The [except Exception as e] clause. *)
Definition watchdog_handler (e : string) : Thread unit :=
  let error_msg := "后台任务执行失败: " ++ e in
  emit (EvLog ERROR error_msg) ;;
  update (set_result (Error error_msg)) ;;
  emit (EvSetResult (Error error_msg)) ;;
  update (set_running false) ;; emit (EvSetRunning false) ;;
  invoke_callback (Error error_msg).

Definition _execute_background_task (os : OS) : Thread unit :=
  try_except (watchdog_body os) watchdog_handler.

(** ** ForegroundExecutor: [_execute_foreground] *)

Inductive RunOutcome : Type :=
| RunCompleted (stdout stderr : string) (returncode : Z)
| RunTimeoutExpired
| RunRaises (msg : string).

(** Does [communicate(timeout=timeout)] get the whole output in time:
    have the process and the descendants that hold its pipes all ended
    within [timeout] seconds? *)
Definition finishes_within (p : Process) (timeout : Z) : bool :=
  match exit_time p, descendants_exit p with
  | Some e, Some d =>
      (Z.of_nat e <=? 10 * timeout) && (Z.of_nat d <=? 10 * timeout)
  | _, _ => false
  end.

(** [subprocess.run(command, capture_output=True, text=True,
    timeout=timeout, ...)], after the library on POSIX, with the calls
    its body makes on the process:
    [communicate(timeout=timeout)], and when that raises, [kill()],
    followed by [wait()] if the exception is [TimeoutExpired]; the
    exception is raised again.  [communicate] raises [OverflowError] at
    once for a timeout the platform cannot wait for, [TimeoutExpired]
    when the time is over, and [UnicodeDecodeError] for an output it
    cannot decode.  The process is the shell under [shell=True]: the
    kill does not reach a command that is a descendant of it. *)
Definition subprocess_run (os : OS) (args : SpawnArgs) (timeout : Z)
  : list Event * RunOutcome :=
  match os_spawn os args with
  | SpawnRaises e => ([], RunRaises e)
  | Spawned p =>
      if os_timeout_limit os <=? timeout then
        ([EvSpawn (sa_command args); EvCommunicate; EvKill],
         RunRaises (os_timeout_error os))
      else if finishes_within p timeout then
        match output_error p with
        | Some e =>
            ([EvSpawn (sa_command args); EvCommunicate; EvKill],
             RunRaises e)
        | None =>
            ([EvSpawn (sa_command args); EvCommunicate],
             RunCompleted (p_stdout p) (p_stderr p) (p_returncode p))
        end
      else
        ([EvSpawn (sa_command args); EvCommunicate; EvKill; EvWait],
         RunTimeoutExpired)
  end.

Definition timeout_message (timeout : Z) : string :=
  "命令执行超时: " ++ str_of_int timeout ++ "秒".

Definition failure_message (e : string) : string :=
  "命令执行失败: " ++ e.

Definition denied_message : string := "命令被禁止执行".

Definition _execute_foreground (os : OS) (command : string) (timeout : Z)
    (cwd : string) (env : option Env) (shell : bool)
  : list Event * Result :=
  match subprocess_run os (mkSpawnArgs command shell cwd
                                       (env_or env (os_environ os)))
                       timeout with
  | (tr, RunCompleted stdout stderr rc) =>
      (tr, Completed stdout stderr rc command timeout false)
  | (tr, RunTimeoutExpired) =>
      ((tr ++ [EvLog ERROR (timeout_message timeout)])%list,
       Error (timeout_message timeout))
  | (tr, RunRaises e) =>
      ((tr ++ [EvLog ERROR (failure_message e)])%list,
       Error (failure_message e))
  end.

(** ** BackgroundTaskSupervisor *)

Definition with_self (ex : CommandExecutor) (w : World) : World :=
  mkWorld ex (store w) (next_addr w) (reads w) (trace w).

Definition log (evs : list Event) (w : World) : World :=
  mkWorld (self w) (store w) (next_addr w) (reads w) (trace w ++ evs)%list.

(** One call of [time.time()]. *)
Definition tick (w : World) : World :=
  mkWorld (self w) (store w) (next_addr w) (S (reads w)) (trace w).

(** A new task object. *)
Definition alloc (t : Task) (w : World) : World :=
  mkWorld (self w) (<[next_addr w := t]> (store w)) (S (next_addr w))
          (reads w) (trace w).

Definition task_id_of (now : Z) : string := "bg_" ++ str_of_int now.

(** [_execute_background].  The thread is started on the task object
    before the registry gets it; the thread itself is run by
    [run_watchdog]. *)
Definition _execute_background (os : OS) (clock : Clock) (w : World)
    (command : string) (timeout : Z) (cwd : string) (env : option Env)
    (shell : bool) (callback : option Callback) : World * Result :=
  let task_id := task_id_of (clock (reads w)) in
  let w := tick w in
  let start_time := clock (reads w) in
  let w := tick w in
  let task := mkTask task_id command start_time timeout cwd
                     (env_or env (os_environ os)) shell true None None
                     callback in
  let addr := next_addr w in
  let w := alloc task w in
  let w := log [EvStartThread addr] w in
  let w := with_self (with_tasks (<[task_id := addr]>
                                    (background_tasks (self w)))
                                 (self w)) w in
  let w := log [EvLog INFO ("启动后台任务: " ++ task_id ++ " - " ++ command)]
               w in
  (w, Submitted task_id command timeout).

(** The thread of the task object at [addr] runs as far as it gets: to
    its end, or to a call that does not return. *)
Definition run_watchdog (os : OS) (addr : nat) (w : World) : World :=
  match store w !! addr with
  | Some task =>
      match _execute_background_task os task with
      | (tr, task', _) =>
          mkWorld (self w) (<[addr := task']> (store w)) (next_addr w)
                  (reads w) (trace w ++ tr)%list
      end
  | None => w
  end.

(** The dict [get_background_task] and [get_background_tasks] give for a
    task. *)
Record TaskView : Type := mkView {
  v_id : string;
  v_command : string;
  v_start_time : Z;
  v_running : bool;
  v_result : option Result
}.

Definition view (t : Task) : TaskView :=
  mkView (t_id t) (t_command t) (t_start_time t) (t_running t) (t_result t).

(** [self.background_tasks[task_id]], the task object itself. *)
Definition task_of (w : World) (task_id : string) : option Task :=
  background_tasks (self w) !! task_id ≫= fun addr => store w !! addr.

Definition get_background_task (w : World) (task_id : string)
  : string + TaskView :=
  match task_of w task_id with
  | Some task => inr (view task)
  | None => inl ("任务不存在: " ++ task_id)
  end.

(** One turn of the loop of [clear_background_tasks]. *)
Definition clear_step (w : World) (acc : list string * gmap string nat)
    (item : string * nat) : list string * gmap string nat :=
  match store w !! item.2 with
  | Some task =>
      if negb (t_running task) then
        ((acc.1 ++ [item.1])%list, delete item.1 acc.2)
      else acc
  | None => acc
  end.

(** [clear_background_tasks], with the values of ["cleared_tasks"] and
    ["count"].  The loop runs over a copy of the items, taken here in the
    order of [map_to_list] and not in the order of insertion of the dict;
    the order only shows in the order of ["cleared_tasks"]. *)
Definition clear_background_tasks (w : World)
  : World * (list string * nat) :=
  let items := map_to_list (background_tasks (self w)) in
  let '(cleared_tasks, tasks) :=
    foldl (clear_step w) ([], background_tasks (self w)) items in
  let n := List.length cleared_tasks in
  (log [EvLog INFO ("清除后台任务: " ++ str_of_int (Z.of_nat n) ++ " 个")]
       (with_self (with_tasks tasks (self w)) w),
   (cleared_tasks, n)).

(** ** [execute_command] *)

(** Both [_execute_background] and [_execute_foreground] catch every
    exception themselves, so the [except] clause of [execute_command] is
    never entered and is left out. *)
Definition execute_command (os : OS) (clock : Clock) (w : World)
    (command : string) (timeout_arg : option Z) (background : bool)
    (cwd : option string) (env : option Env) (shell : bool)
    (callback : option Callback) : World * Result :=
  let '(warning, allowed) := _is_command_allowed (self w) command in
  let w := log warning w in
  if negb allowed then (w, Error denied_message)
  else
    let timeout := int_or timeout_arg (timeout (self w)) in
    let cwd := str_or cwd (current_dir (self w)) in
    let w := tick (with_self (_add_to_history (self w) command
                                              (clock (reads w))) w) in
    let w := log [EvLog INFO ("执行命令: " ++ command)] w in
    if background then
      _execute_background os clock w command timeout cwd env shell callback
    else
      match _execute_foreground os command timeout cwd env shell with
      | (tr, r) => (log tr w, r)
      end.

(** * Vocabulary of the properties, and scenarios *)

(** The command is block-listed: trimmed and lower-cased, it starts with
    a lower-cased entry of the block-list. *)
Definition block_listed (ex : CommandExecutor) (c : string) : Prop :=
  exists b rest,
    In b (blocked_commands ex) /\ lower (strip c) = lower b ++ rest.

(** The command is allow-listed: trimmed, it starts with an entry of the
    allow-list. *)
Definition allow_listed (allow : list string) (c : string) : Prop :=
  exists a rest, In a allow /\ strip c = a ++ rest.

Definition policy_example : CommandExecutor :=
  __init__ None (Some ["ls"; "rm"]) (Some ["rm -rf /"]) "/home".

Definition quiet_os : OS :=
  mkOS [("PATH", "/bin")]
       (fun _ => Spawned (mkProcess (Some 1%nat) "" "" 0 true (-15))).

Definition guarded_world : World :=
  new_world (handler_command_executor None "/home").

(** The state in which an accepted command is run: the history has the
    command, the clock was read once, the log has the announcement. *)
Definition accepted (clock : Clock) (w : World) (command : string)
  : World :=
  log [EvLog INFO ("执行命令: " ++ command)]
      (tick (with_self (_add_to_history (self w) command (clock (reads w)))
                       w)).

Definition sleep_100 : Process :=
  mkProcess (Some 1000%nat) "" "" 0 true (-15).

Definition sleepy_os : OS :=
  mkOS [("PATH", "/bin")] (fun _ => Spawned sleep_100).

(** The last [n] elements of a list, oldest first. *)
Definition lastn {A} (n : nat) (l : list A) : list A :=
  List.skipn (List.length l - n) l.

(** Successive insertions; an insertion is a command with the time the
    clock shows. *)
Definition add_all (ex : CommandExecutor) (inserts : list (string * Z))
  : CommandExecutor :=
  fold_left (fun ex i => _add_to_history ex i.1 i.2) inserts ex.

Definition entry_of (ex : CommandExecutor) (i : string * Z) : HistoryEntry :=
  mkEntry i.1 i.2 (current_dir ex).

(** A hundred and two insertions, numbered by the time of insertion. *)
Definition numbered_inserts : list (string * Z) :=
  List.map (fun n => ("echo", Z.of_nat n)) (List.seq 0 102).

Definition three_commands : CommandExecutor :=
  add_all (__init__ None None None "/") [("a", 1); ("b", 2); ("c", 3)].

(** A clock that advances every 15.6 ms, and is read far more often. *)
Definition coarse_clock : Clock :=
  fun k => 1700000000000000 + 15600 * Z.of_nat (k / 64).

Definition first_submission : World * Result :=
  execute_command sleepy_os coarse_clock guarded_world "sleep 100" (Some 1)
                  true None None true None.

Definition second_submission : World * Result :=
  execute_command sleepy_os coarse_clock first_submission.1 "echo hello"
                  None true None None true None.

Definition fine_clock : Clock := fun k => 1700000000000000 + Z.of_nat k.

(** The task object at [addr] is there and is not running. *)
Definition terminal (w : World) (addr : nat) : bool :=
  match store w !! addr with
  | Some task => negb (t_running task)
  | None => false
  end.

(** The ids the loop of [clear_background_tasks] picks among [items]. *)
Fixpoint removed (w : World) (items : list (string * nat)) : list string :=
  match items with
  | [] => []
  | item :: items =>
      if terminal w item.2 then item.1 :: removed w items
      else removed w items
  end.

Definition delete_all (ks : list string) (m : gmap string nat)
  : gmap string nat :=
  foldl (fun m k => delete k m) m ks.

(** The events and the final time of the polling loop, without the
    thread around them. *)
Fixpoint loop_events (p : Process) (fuel now : nat) : list Event :=
  match fuel with
  | O => []
  | S fuel' =>
      if exited p now then [EvPoll]
      else EvPoll :: EvSleep :: loop_events p fuel' (S now)
  end.

Fixpoint loop_end (p : Process) (fuel now : nat) : nat :=
  match fuel with
  | O => now
  | S fuel' => if exited p now then now else loop_end p fuel' (S now)
  end.

(** The arguments [Popen] is called with for a task. *)
Definition spawn_args_of (t : Task) : SpawnArgs :=
  mkSpawnArgs (t_command t) (t_shell t) (t_cwd t) (t_env t).

(** The message of the [TimeoutExpired] that [process.wait(timeout=5)]
    raises, as the handler records it. *)
Definition wait_expired_message (command : string) : string :=
  "后台任务执行失败: Command '" ++ command ++ "' timed out after 5 seconds".

Definition submit_world (os : OS) (clock : Clock) (command : string)
    (timeout : Z) (callback : option Callback) : World :=
  (execute_command os clock guarded_world command (Some timeout) true None
                   None true callback).1.

(** [submit("sleep 100", timeout=1)], then the watchdog runs. *)
Definition timed_out_world : World :=
  run_watchdog sleepy_os 0 (submit_world sleepy_os fine_clock "sleep 100" 1
                                         None).

(** A process that ignores [terminate()]. *)
Definition stubborn_os : OS :=
  mkOS [("PATH", "/bin")]
       (fun _ => Spawned (mkProcess None "" "" 0 false (-9))).

Definition stubborn_world : World :=
  run_watchdog stubborn_os 0 (submit_world stubborn_os fine_clock
                                           "sleep 100" 1 None).

Definition stubborn_task : Task :=
  mkTask "bg_1700000000000001" "sleep 100" 1700000000000002 1 "/home"
         [("PATH", "/bin")] true true None None None.

Definition raising_callback : Callback := fun _ => Raises "boom".

(** [submit("echo hello", timeout=5, callback)] with a callback that
    raises, then the watchdog runs. *)
Definition raising_world : World :=
  run_watchdog quiet_os 0 (submit_world quiet_os fine_clock "echo hello" 5
                                        (Some raising_callback)).

(** Two submissions; the watchdog of the first has run, the second task is
    still running. *)
Definition two_tasks_world : World :=
  run_watchdog quiet_os 0
    (execute_command quiet_os fine_clock
       (submit_world quiet_os fine_clock "echo hello" 5 None)
       "sleep 100" (Some 100) true None None true None).1.

(** * The other methods of [CommandExecutor] *)

(** ** [get_background_tasks], [stop_background_task] *)

(** One turn of the loop of [get_background_tasks]. *)
Definition tasks_step (w : World) (tasks : gmap string TaskView)
    (item : string * nat) : gmap string TaskView :=
  match store w !! item.2 with
  | Some task => <[item.1 := view task]> tasks
  | None => tasks
  end.

(** [get_background_tasks]: a new dict with the view of every task. *)
Definition get_background_tasks (w : World) : gmap string TaskView :=
  foldl (tasks_step w) ∅ (map_to_list (background_tasks (self w))).

(** The dicts [stop_background_task] returns:
    [{"success": True, "message": m}] and [{"error": e}]. *)
Inductive StopResult : Type :=
| Stopped (message : string)
| StopError (error : string).

(** The task object at [addr] is overwritten. *)
Definition update_task (addr : nat) (t : Task) (w : World) : World :=
  mkWorld (self w) (<[addr := t]> (store w)) (next_addr w) (reads w)
          (trace w).

Definition stop_expired_message (command : string) : string :=
  "停止后台任务失败: Command '" ++ command ++ "' timed out after 5 seconds".

(** The end of the [try] of [stop_background_task]. *)
Definition stopped (w : World) (addr : nat) (task : Task)
    (task_id : string) : World * StopResult :=
  (log [EvLog INFO ("停止后台任务: " ++ task_id ++ " - " ++ t_command task)]
       (update_task addr (set_running false task) w),
   Stopped ("已停止后台任务: " ++ task_id)).

(** [stop_background_task]; [now] is the time since the spawn of the
    task's process, in tenths of a second, at which the method is
    called.  A [Popen] object is true, so [if task["process"]:] asks
    whether the watchdog has spawned the process yet. *)
Definition stop_background_task (w : World) (task_id : string) (now : nat)
  : World * StopResult :=
  match background_tasks (self w) !! task_id with
  | None => (w, StopError ("任务不存在: " ++ task_id))
  | Some addr =>
      match store w !! addr with
      | None => (w, StopError ("任务不存在: " ++ task_id))
      | Some task =>
          if negb (t_running task) then
            (w, StopError ("任务未运行: " ++ task_id))
          else
            match t_process task with
            | Some p =>
                let w := log [EvTerminate; EvWait] w in
                if gone_after_terminate p now then stopped w addr task task_id
                else
                  (log [EvLog ERROR (stop_expired_message (t_command task))]
                       w,
                   StopError (stop_expired_message (t_command task)))
            | None => stopped w addr task task_id
            end
      end
  end.

(** ** [set_current_dir], [get_current_dir] *)

(** What [os.path] answers. *)
Record FileSystem : Type := mkFS {
  abspath : string -> string;       (* [os.path.abspath] *)
  path_exists : string -> bool;     (* [os.path.exists] *)
  path_isdir : string -> bool       (* [os.path.isdir] *)
}.

(** The dicts [set_current_dir] returns:
    [{"success": True, "message": m, "path": p}] and [{"error": e}]. *)
Inductive DirResult : Type :=
| DirSet (message path : string)
| DirError (error : string).

Definition with_current_dir (dir : string) (ex : CommandExecutor)
  : CommandExecutor :=
  mkExecutor (timeout ex) (allowed_commands ex) (blocked_commands ex)
             dir (command_history ex) (max_history ex)
             (background_tasks ex).

(** [set_current_dir]; the three calls of [os.path] do not raise on a
    [str], so the [except] clause is left out. *)
Definition set_current_dir (fs : FileSystem) (w : World) (path : string)
  : World * DirResult :=
  let abs_path := abspath fs path in
  if negb (path_exists fs abs_path) then
    (w, DirError ("路径不存在: " ++ abs_path))
  else if negb (path_isdir fs abs_path) then
    (w, DirError ("路径不是目录: " ++ abs_path))
  else
    (log [EvLog INFO ("设置当前目录: " ++ abs_path)]
         (with_self (with_current_dir abs_path (self w)) w),
     DirSet ("已设置当前目录: " ++ abs_path) abs_path).

Definition get_current_dir (w : World) : string := current_dir (self w).

(** ** [batch_execute] *)

(** The dict [batch_execute] returns. *)
Record BatchResult : Type := mkBatch {
  b_success : bool;
  b_results : list Result;
  b_total : nat;
  b_success_count : nat;
  b_error_count : nat;
  b_commands : list string
}.

(** The counters of the loop: [results], [success_count], [error_count]. *)
Definition BatchAcc : Type := (list Result * nat * nat)%type.

Definition batch_message (i total : nat) (command : string) : string :=
  "批量执行命令 " ++ str_of_int (Z.of_nat (i + 1)) ++ "/"
  ++ str_of_int (Z.of_nat total) ++ ": " ++ command.

(** The loop of [batch_execute] from index [i] on; each command goes
    through [self.execute_command(command, timeout)]. *)
Fixpoint batch_loop (os : OS) (clock : Clock) (timeout : option Z)
    (continue_on_error : bool) (total i : nat) (commands : list string)
    (w : World) (acc : BatchAcc) : World * BatchAcc :=
  match commands with
  | [] => (w, acc)
  | command :: rest =>
      let w := log [EvLog INFO (batch_message i total command)] w in
      match execute_command os clock w command timeout false None None true
                            None with
      | (w, result) =>
          let results := (acc.1.1 ++ [result])%list in
          if success result then
            batch_loop os clock timeout continue_on_error total (S i) rest w
                       (results, S acc.1.2, acc.2)
          else if continue_on_error then
            batch_loop os clock timeout continue_on_error total (S i) rest w
                       (results, acc.1.2, S acc.2)
          else (w, (results, acc.1.2, S acc.2))
      end
  end.

Definition batch_execute (os : OS) (clock : Clock) (w : World)
    (commands : list string) (timeout : option Z)
    (continue_on_error : bool) : World * BatchResult :=
  match batch_loop os clock timeout continue_on_error
                   (List.length commands) 0 commands w ([], 0%nat, 0%nat) with
  | (w, (results, success_count, error_count)) =>
      (w, mkBatch (error_count =? 0)%nat results (List.length commands)
                  success_count error_count commands)
  end.

(** ** [execute_script] *)

(** [s.split(".")] *)
Fixpoint split_dot (s : string) : list string :=
  match s with
  | EmptyString => [EmptyString]
  | String a s' =>
      if Ascii.eqb a "." then EmptyString :: split_dot s'
      else match split_dot s' with
           | x :: xs => String a x :: xs
           | [] => [String a EmptyString]
           end
  end.

(** ["." in s] *)
Fixpoint has_dot (s : string) : bool :=
  match s with
  | EmptyString => false
  | String a s' => Ascii.eqb a "." || has_dot s'
  end.

(** The suffix of the temporary file. *)
Definition script_suffix (interpreter : string) : string :=
  "." ++ (if has_dot interpreter
          then List.last (split_dot interpreter) EmptyString
          else interpreter).

(** [' '.join(args)] *)
Definition join_spaces (args : list string) : string :=
  String.concat " " args.

(** The command line built for a script stored at [temp_file_path]. *)
Definition script_command (interpreter temp_file_path : string)
    (args : option (list string)) : string :=
  match args with
  | Some (a :: l) =>
      interpreter ++ " " ++ temp_file_path ++ " " ++ join_spaces (a :: l)
  | _ => interpreter ++ " " ++ temp_file_path
  end.

(** What happens to the temporary file. *)
Inductive FileEvent : Type :=
| FileWritten (path content : string)
| FileUnlinked (path : string).

(** [execute_script].  [tmp suffix] is what creating and writing the
    temporary file gives: its name, or an exception.  The file events
    are given apart from the trace: the file is written before the
    command is handed to [execute_command] and unlinked after it
    returns. *)
Definition execute_script (tmp : string -> string + string) (os : OS)
    (clock : Clock) (w : World) (script interpreter : string)
    (timeout : option Z) (args : option (list string))
  : World * Result * list FileEvent :=
  match tmp (script_suffix interpreter) with
  | inl e =>
      (log [EvLog ERROR ("执行脚本失败: " ++ e)] w,
       Error ("执行脚本失败: " ++ e), [])
  | inr temp_file_path =>
      match execute_command os clock w
              (script_command interpreter temp_file_path args) timeout
              false None None true None with
      | (w, result) =>
          (w, result,
           [FileWritten temp_file_path script; FileUnlinked temp_file_path])
      end
  end.

(** ** Scenarios for the other methods *)

(** A task whose process was spawned and is still running, as the
    watchdog leaves it between two polls. *)
Definition polled_task (p : Process) : Task :=
  mkTask "bg_1700000000000001" "sleep 100" 1700000000000002 100 "/home"
         [("PATH", "/bin")] true true None (Some p) None.

(** A world whose registry has the one task [polled_task p]. *)
Definition polled_world (p : Process) : World :=
  mkWorld (with_tasks {[ "bg_1700000000000001" := 0%nat ]}
                      (handler_command_executor None "/home"))
          {[ 0%nat := polled_task p ]} 1 3 [].

(** The addresses in use, in the store and in the registry, are below
    the next address to be given out. *)
Definition addresses_fresh (w : World) : Prop :=
  map_Forall (fun a (_ : Task) => (a < next_addr w)%nat) (store w) /\
  map_Forall (fun (_ : string) a => (a < next_addr w)%nat)
             (background_tasks (self w)).

(** * The settings the handler reads: [src/config/settings.py] *)

(** A value of a configuration: what [json.load] gives, and what
    [DEFAULT_CONFIG] is made of.  A float is kept as its literal.  A dict
    is the list of its items in the order of insertion, with keys that
    are all different. *)
#[warnings="-register-all"]
Inductive Json : Type :=
| JNull
| JBool (b : bool)
| JInt (n : Z)
| JFloat (literal : string)
| JStr (s : string)
| JList (items : list Json)
| JDict (entries : list (string * Json)).

(** [d.get(key)] *)
Fixpoint dict_get (key : string) (d : list (string * Json)) : option Json :=
  match d with
  | [] => None
  | (k, v) :: d' => if String.eqb key k then Some v else dict_get key d'
  end.

(** [d[key] = value]: the value is replaced where the key is, or the
    item is added at the end. *)
Fixpoint dict_set (key : string) (value : Json) (d : list (string * Json))
  : list (string * Json) :=
  match d with
  | [] => [(key, value)]
  | (k, v) :: d' =>
      if String.eqb key k then (key, value) :: d'
      else (k, v) :: dict_set key value d'
  end.

(** [_merge_config(base_config, new_config)], as the value [base_config]
    has when the call returns; [new] is [JDict new_config]. *)
Fixpoint merge_into (base : list (string * Json)) (new : Json) {struct new}
  : list (string * Json) :=
  match new with
  | JDict entries =>
      (fix loop (base : list (string * Json))
           (entries : list (string * Json)) {struct entries}
         : list (string * Json) :=
         match entries with
         | [] => base
         | (key, value) :: rest =>
             match dict_get key base, value with
             | Some (JDict sub), JDict _ =>
                 loop (dict_set key (JDict (merge_into sub value)) base) rest
             | _, _ => loop (dict_set key value base) rest
             end
         end) base entries
  | _ => base
  end.

Definition _merge_config (base_config new_config : list (string * Json))
  : list (string * Json) :=
  merge_into base_config (JDict new_config).

(** What one item of [new_config] makes of [base_config]. *)
Definition merge_item (base : list (string * Json)) (key : string)
    (value : Json) : Json :=
  match dict_get key base, value with
  | Some (JDict sub), JDict entries => JDict (_merge_config sub entries)
  | _, _ => value
  end.

Definition default_tools : list (string * Json) :=
  [("timeout", JInt 30);
   ("allowed_commands", JList []);
   ("blocked_commands", JList [JStr "rm -rf /"; JStr "del /f /s /q"])].

Definition DEFAULT_CONFIG : list (string * Json) :=
  [("ai", JDict [("provider", JStr "openai");
                 ("model", JStr "gpt-3.5-turbo");
                 ("api_key", JStr "");
                 ("base_url", JStr "");
                 ("temperature", JFloat "0.7");
                 ("max_tokens", JInt 1500)]);
   ("mcp", JDict [("enabled", JBool false);
                  ("host", JStr "localhost");
                  ("port", JInt 8000)]);
   ("tools", JDict default_tools);
   ("ui", JDict [("theme", JStr "default");
                 ("history_size", JInt 100)])].

(** A list of strings, when the value is one. *)
Fixpoint strings_of (items : list Json) : option (list string) :=
  match items with
  | [] => Some []
  | JStr s :: items' =>
      match strings_of items' with
      | Some l => Some (s :: l)
      | None => None
      end
  | _ :: _ => None
  end.

(** An entry of the tools settings that is to hold a list of commands:
    absent, [None], or a list of strings; nothing else is a value the
    executor can use. *)
Definition commands_entry (v : option Json)
  : option (option (option (list string))) :=
  match v with
  | None => Some None
  | Some JNull => Some (Some None)
  | Some (JList items) =>
      match strings_of items with
      | Some l => Some (Some (Some l))
      | None => None
      end
  | Some _ => None
  end.

Definition timeout_entry (v : option Json) : option (option Z) :=
  match v with
  | None => Some None
  | Some (JInt n) => Some (Some n)
  | Some _ => None
  end.

(** [settings.get("tools", {})] with its three entries as
    [CommandHandler.__init__] reads them; [None] when an entry holds a
    value of another type. *)
Definition tools_of_settings (settings : list (string * Json))
  : option (option ToolsSettings) :=
  match dict_get "tools" settings with
  | None => Some None
  | Some (JDict tools) =>
      match timeout_entry (dict_get "timeout" tools),
            commands_entry (dict_get "allowed_commands" tools),
            commands_entry (dict_get "blocked_commands" tools) with
      | Some t, Some a, Some b => Some (Some (mkTools t a b))
      | _, _, _ => None
      end
  | Some _ => None
  end.

(** A process that ends after 0.3 s with the exit status 2. *)
Definition failing_build : Process :=
  mkProcess (Some 3%nat) "" "error: no such target" 2 true (-15).

(** The results that count as successes, and as errors, in a batch. *)
Definition successes (rs : list Result) : nat :=
  List.length (List.filter success rs).

Definition failures (rs : list Result) : nat :=
  List.length (List.filter (fun r => negb (success r)) rs).

(** A file system where [/home/projects] is the one directory. *)
Definition home_fs : FileSystem :=
  mkFS (fun path => "/home/" ++ path)
       (fun path => String.eqb path "/home/projects")
       (fun path => String.eqb path "/home/projects").

(** Has the thread come to its end, by returning or by raising, or is it
    still waiting in a call that does not return? *)
Definition ended {A} (o : Outcome A) : bool :=
  match o with
  | Blocked => false
  | _ => true
  end.

(** Does the thread of the task object at [addr] come to its end? *)
Definition watchdog_ended (os : OS) (addr : nat) (w : World) : bool :=
  match store w !! addr with
  | Some task => ended (_execute_background_task os task).2
  | None => false
  end.

(** Under [shell=True] the process that is spawned is the shell.  A
    command the shell does not find is no failure of the spawn: the shell
    ends with the status 127 and a message on its standard error. *)
Definition shell_without_command : Process :=
  mkProcess (Some 0%nat) "" "/bin/sh: 1: nosuchcmd: not found" 127 true
            (-15).

Definition missing_command_os : OS :=
  mkOS [("PATH", "/bin")] (fun _ => Spawned shell_without_command).



(** The shell of ["tail -f /dev/null | cat"]: its commands never end. *)
Definition shell_of_follower : Process :=
  ProcessOf None "" "" 0 true (-15) None None.

Definition follower_os : OS :=
  mkOS [("PATH", "/bin")] (fun _ => Spawned shell_of_follower).

Definition follower_task : Task :=
  mkTask "bg_1700000000000001" "tail -f /dev/null | cat" 1700000000000002 1
         "/home" [("PATH", "/bin")] true true None None None.

(** A process that ends after 0.1 s and has written a byte that is no
    UTF-8. *)
Definition undecodable_message : string :=
  "'utf-8' codec can't decode byte 0xff in position 0: invalid start byte".

Definition binary_output : Process :=
  ProcessOf (Some 1%nat) "" "" 0 true (-15) (Some undecodable_message)
            (Some 0%nat).

Definition binary_os : OS :=
  mkOS [("PATH", "/bin")] (fun _ => Spawned binary_output).

(** * Properties *)

Example strip_ex : strip "  rm -RF /  " = "rm -RF /".
Proof. reflexivity. Qed.

Example lower_ex : lower "Del /F /S /Q c:\" = "del /f /s /q c:\".
Proof. reflexivity. Qed.

Example str_of_int_ex : str_of_int 1700000000123456 = "1700000000123456".
Proof. reflexivity. Qed.

Example utf8_ex : String.length "命令被禁止执行" = 21%nat.
Proof. reflexivity. Qed.

(** ** Strings *)

Lemma append_nil (r : string) : "" ++ r = r.
Proof. reflexivity. Qed.

Lemma append_cons (a : ascii) (p r : string) :
  String a p ++ r = String a (p ++ r).
Proof. reflexivity. Qed.

Lemma startswith_spec (s p : string) :
  startswith s p = true <-> exists rest, s = p ++ rest.
Proof.
  unfold startswith. revert s.
  induction p as [|a p IH]; intros s.
  - split; [intros _; now exists s | intros _; now destruct s].
  - destruct s as [|b s]; simpl.
    + split; [discriminate | intros [r Hr]; discriminate].
    + destruct (Ascii.ascii_dec a b) as [->|Hab].
      * rewrite IH. split; intros [r Hr]; exists r.
        -- rewrite append_cons. congruence.
        -- rewrite append_cons in Hr. congruence.
      * split; [discriminate|].
        intros [r Hr]. rewrite append_cons in Hr. congruence.
Qed.

(** ** CommandPolicy *)

Lemma in_block_list_spec ex c :
  in_block_list ex c = true <-> block_listed ex c.
Proof.
  unfold in_block_list, block_listed. rewrite existsb_exists.
  split.
  - intros [b [Hb Hp]]. apply startswith_spec in Hp as [r Hr]. eauto.
  - intros (b & r & Hb & Hr). exists b. split; [exact Hb|].
    apply startswith_spec. eauto.
Qed.

Lemma in_allow_list_spec ex allow c :
  allowed_commands ex = Some allow ->
  in_allow_list ex c = true <-> allow_listed allow c.
Proof.
  intros Ha. unfold in_allow_list, allow_listed. rewrite Ha. simpl.
  rewrite existsb_exists. split.
  - intros [a [Hin Hp]]. apply startswith_spec in Hp as [r Hr]. eauto.
  - intros (a & r & Hin & Hr). exists a. split; [exact Hin|].
    apply startswith_spec. eauto.
Qed.

Lemma isAllowed_eq ex c :
  isAllowed ex c =
  negb (allow_list_configured ex && negb (in_allow_list ex c))
  && negb (in_block_list ex c).
Proof.
  unfold isAllowed, _is_command_allowed.
  destruct (allow_list_configured ex), (in_allow_list ex c),
    (in_block_list ex c); reflexivity.
Qed.

Lemma block_listed_denied ex c : block_listed ex c -> isAllowed ex c = false.
Proof.
  intros Hb. apply in_block_list_spec in Hb.
  rewrite isAllowed_eq, Hb. apply andb_false_r.
Qed.

(** C1. A block-listed command is refused whatever the allow-list is; and
    with an allow-list that is configured and not empty, a command is
    allowed exactly when it is allow-listed and not block-listed. *)
Theorem C1_policy_characterization (ex : CommandExecutor) (c : string) :
  (block_listed ex c -> isAllowed ex c = false) /\
  (forall allow,
      allowed_commands ex = Some allow -> allow <> [] ->
      (isAllowed ex c = true <-> allow_listed allow c /\ ~ block_listed ex c)).
Proof.
  split; [apply block_listed_denied|].
  intros allow Ha Hne.
  rewrite <- (in_allow_list_spec ex allow c Ha), <- in_block_list_spec.
  rewrite isAllowed_eq.
  assert (allow_list_configured ex = true) as ->.
  { unfold allow_list_configured. rewrite Ha. now destruct allow. }
  destruct (in_allow_list ex c), (in_block_list ex c); simpl;
    intuition congruence.
Qed.

Lemma C1_policy_characterization_witness :
  isAllowed policy_example "  RM -rf / --force " = false /\
  isAllowed policy_example "ls -l" = true.
Proof.
  split.
  - apply (proj1 (C1_policy_characterization policy_example
                    "  RM -rf / --force ")).
    exists "rm -rf /", " --force". split; [left|]; reflexivity.
  - apply (proj2 (C1_policy_characterization policy_example "ls -l")
             ["ls"; "rm"] eq_refl).
    + discriminate.
    + split.
      * exists "ls", " -l". split; [left|]; reflexivity.
      * intros Hb. apply in_block_list_spec in Hb. discriminate Hb.
Defined.

(** ** The default block-list *)

(** C4, as stated, fails: an executor constructed without a block-list
    has an empty one, and lets the recursive deletes through. *)
Lemma C4_bare_executor_blocks_nothing :
  blocked_commands (__init__ None None None "/") = [] /\
  isAllowed (__init__ None None None "/") "rm -rf /" = true /\
  isAllowed (__init__ None None None "/") "del /f /s /q C:\" = true.
Proof. repeat split. Qed.

(** C4, amended.  [CommandExecutor.__init__] without a block-list leaves
    the block-list empty.  The default block-list comes from
    [CommandHandler.__init__]: when the settings have no
    ["blocked_commands"] entry it passes ["rm -rf /"] and ["del /f /s /q"],
    and the executor it builds refuses every command that, trimmed and
    lower-cased, starts with one of the two. *)
Theorem C4_default_block_list :
  (forall timeout allow cwd,
      blocked_commands (__init__ timeout allow None cwd) = []) /\
  (forall tools cwd,
      ts_blocked_commands (get_tools tools) = None ->
      blocked_commands (handler_command_executor tools cwd)
      = ["rm -rf /"; "del /f /s /q"] /\
      forall c rest,
        lower (strip c) = "rm -rf /" ++ rest \/
        lower (strip c) = "del /f /s /q" ++ rest ->
        isAllowed (handler_command_executor tools cwd) c = false).
Proof.
  split; [reflexivity|].
  intros tools cwd Hnone.
  assert (blocked_commands (handler_command_executor tools cwd)
          = ["rm -rf /"; "del /f /s /q"]) as Hb.
  { unfold handler_command_executor. rewrite Hnone. reflexivity. }
  split; [exact Hb|].
  intros c rest Hc.
  apply block_listed_denied.
  unfold block_listed. rewrite Hb.
  destruct Hc as [Hc|Hc].
  - exists "rm -rf /", rest. split; [now left | exact Hc].
  - exists "del /f /s /q", rest. split; [right; now left | exact Hc].
Qed.

Lemma C4_default_block_list_witness :
  blocked_commands (handler_command_executor None "C:\")
  = ["rm -rf /"; "del /f /s /q"] /\
  isAllowed (handler_command_executor None "C:\") " DEL /F /S /Q C:\" = false.
Proof.
  destruct (proj2 C4_default_block_list None "C:\" eq_refl) as [Hb Hdeny].
  split; [exact Hb|].
  apply (Hdeny " DEL /F /S /Q C:\" " c:\"). right. reflexivity.
Defined.

(** ** Denied commands *)

Lemma refusal_logs_one_warning ex c warning :
  _is_command_allowed ex c = (warning, false) ->
  exists msg, warning = [EvLog WARNING msg].
Proof.
  unfold _is_command_allowed.
  destruct (allow_list_configured ex && negb (in_allow_list ex c)).
  - intros [= <-]. eauto.
  - destruct (in_block_list ex c); intros [= <-]; eauto.
Qed.

Lemma count_app f (a b : list Event) :
  count f (a ++ b) = (count f a + count f b)%nat.
Proof. unfold count. now rewrite List.filter_app, List.length_app. Qed.

(** C3. A command the policy denies gets the error ["命令被禁止执行"] at
    once: the executor (its history and its task registry), the task store
    and the clock are as before, and the trace only gains the warning of
    the policy, so no process is spawned. *)
Theorem C3_denied_command_has_no_effect
    (os : OS) (clock : Clock) (w : World) (command : string)
    (timeout : option Z) (background : bool) (cwd : option string)
    (env : option Env) (shell : bool) (callback : option Callback) :
  isAllowed (self w) command = false ->
  let out := execute_command os clock w command timeout background cwd env
                             shell callback in
  out.2 = Error denied_message /\
  self out.1 = self w /\
  command_history (self out.1) = command_history (self w) /\
  store out.1 = store w /\
  reads out.1 = reads w /\
  (exists msg, trace out.1 = (trace w ++ [EvLog WARNING msg])%list) /\
  count is_spawn (trace out.1) = count is_spawn (trace w).
Proof.
  intros Hdenied. unfold isAllowed in Hdenied.
  unfold execute_command.
  destruct (_is_command_allowed (self w) command) as [warning allowed] eqn:E.
  simpl in Hdenied. subst allowed. simpl.
  destruct (refusal_logs_one_warning _ _ _ E) as [msg ->].
  repeat split; eauto.
  rewrite count_app. unfold count. simpl. lia.
Qed.

Lemma C3_denied_command_has_no_effect_witness :
  (execute_command quiet_os (fun _ => 0) guarded_world "rm -rf / --force"
                   None false None None true None).2
  = Error denied_message /\
  command_history
    (self (execute_command quiet_os (fun _ => 0) guarded_world
                           "rm -rf / --force" None false None None true
                           None).1) = [].
Proof.
  pose proof (C3_denied_command_has_no_effect quiet_os (fun _ => 0)
                guarded_world "rm -rf / --force" None false None None true
                None eq_refl) as (Hr & _ & Hh & _).
  split; [exact Hr | exact Hh].
Defined.

(** ** Foreground errors *)

Lemma messages_distinct (e : string) (t : Z) :
  failure_message e <> timeout_message t /\
  failure_message e <> denied_message /\
  timeout_message t <> denied_message.
Proof.
  unfold failure_message, timeout_message, denied_message.
  repeat split; intros H; cbv [append] in H; discriminate H.
Qed.

Lemma acceptance_logs_nothing ex c warning :
  _is_command_allowed ex c = (warning, true) -> warning = [].
Proof.
  unfold _is_command_allowed.
  destruct (allow_list_configured ex && negb (in_allow_list ex c));
    [discriminate|].
  destruct (in_block_list ex c); [discriminate|]. now intros [= <-].
Qed.

Lemma execute_command_foreground os clock w command timeout_arg cwd env
    shell callback :
  isAllowed (self w) command = true ->
  execute_command os clock w command timeout_arg false cwd env shell callback
  = let fg := _execute_foreground os command
                (int_or timeout_arg (timeout (self w)))
                (str_or cwd (current_dir (self w))) env shell in
    (log fg.1 (accepted clock w command), fg.2).
Proof.
  unfold isAllowed, execute_command, accepted. intros Hok.
  destruct (_is_command_allowed (self w) command) as [warning allowed] eqn:E.
  simpl in Hok. subst allowed.
  apply acceptance_logs_nothing in E as ->. simpl.
  destruct (_execute_foreground _ _ _ _ _ _) as [tr r]. simpl.
  unfold log, tick, with_self. simpl. now rewrite app_nil_r.
Qed.




(** ** CommandHistory *)

Section History.

Context {A : Type}.
Implicit Types (l a b : list A) (n k : nat).

Lemma lastn_all n l : (List.length l <= n)%nat -> lastn n l = l.
Proof.
  intros H. unfold lastn.
  now replace (List.length l - n)%nat with 0%nat by lia.
Qed.

Lemma lastn_length n l :
  List.length (lastn n l) = Nat.min n (List.length l).
Proof. unfold lastn. rewrite List.length_skipn. lia. Qed.

Lemma lastn_skipn n k l :
  List.length l = (n + k)%nat -> lastn n l = List.skipn k l.
Proof. intros H. unfold lastn. f_equal. lia. Qed.

Lemma lastn_lastn_app n a b : lastn n (lastn n a ++ b) = lastn n (a ++ b).
Proof.
  unfold lastn at 2.
  rewrite <- (List.firstn_skipn (List.length a - n) a) at 3.
  rewrite <- List.app_assoc.
  set (front := List.firstn (List.length a - n) a).
  set (back := List.skipn (List.length a - n) a).
  assert (List.length front = (List.length a - n)%nat) as Hf
    by (unfold front; rewrite List.length_firstn; lia).
  assert (List.length back = (List.length a - (List.length a - n))%nat)
    as Hb by (unfold back; now rewrite List.length_skipn).
  unfold lastn. rewrite !List.length_app.
  replace (List.length front + (List.length back + List.length b) - n)%nat
    with (List.length front + (List.length back + List.length b - n))%nat
    by lia.
  now rewrite drop_app_add.
Qed.

(** [l[-count:]] for a count between 1 and the length. *)
Lemma slice_last l (count : Z) :
  0 < count <= Z.of_nat (List.length l) ->
  slice_from_minus l count = lastn (Z.to_nat count) l.
Proof.
  intros H. unfold slice_from_minus, lastn.
  destruct (Z.ltb_spec (- count) 0); [|lia]. f_equal. lia.
Qed.

(** [l[-count:]] for a count that is 0, or at least the length. *)
Lemma slice_whole l (count : Z) :
  count = 0 \/ Z.of_nat (List.length l) <= count ->
  slice_from_minus l count = l.
Proof.
  intros H. unfold slice_from_minus.
  destruct (Z.ltb_spec (- count) 0).
  - now replace (Z.to_nat _) with 0%nat by lia.
  - now replace (Z.to_nat _) with 0%nat by lia.
Qed.

End History.

(** One insertion keeps the last [max_history] entries. *)
Lemma add_to_history_lastn ex command now :
  Z.of_nat (List.length (command_history ex)) <= max_history ex ->
  command_history (_add_to_history ex command now)
  = lastn (Z.to_nat (max_history ex))
          (command_history ex ++ [mkEntry command now (current_dir ex)]).
Proof.
  intros Hinv. unfold _add_to_history. simpl.
  set (h := (command_history ex ++ _)%list).
  assert (List.length h = S (List.length (command_history ex))) as Hlen
    by (unfold h; rewrite List.length_app; simpl; lia).
  destruct (Z.gtb_spec (Z.of_nat (List.length h)) (max_history ex)).
  - unfold lastn, pop0.
    replace (List.length h - Z.to_nat (max_history ex))%nat with 1%nat
      by lia.
    now destruct h.
  - symmetry. apply lastn_all. lia.
Qed.

Lemma add_all_lastn inserts : forall ex,
  Z.of_nat (List.length (command_history ex)) <= max_history ex ->
  command_history (add_all ex inserts)
  = lastn (Z.to_nat (max_history ex))
          (command_history ex ++ List.map (entry_of ex) inserts) /\
  max_history (add_all ex inserts) = max_history ex.
Proof.
  induction inserts as [|[c now] inserts IH]; intros ex Hinv.
  - simpl. rewrite List.app_nil_r. split; [|reflexivity].
    symmetry. apply lastn_all. lia.
  - change (add_all ex ((c, now) :: inserts))
      with (add_all (_add_to_history ex c now) inserts).
    pose proof (add_to_history_lastn ex c now Hinv) as Hstep.
    destruct (IH (_add_to_history ex c now)) as [Hh Hm].
    { rewrite Hstep, lastn_length. simpl. lia. }
    rewrite Hh, Hm, Hstep. simpl.
    split; [|reflexivity].
    rewrite lastn_lastn_app, <- List.app_assoc. reflexivity.
Qed.

(** Whatever [execute_command] does, the history is the old one or the old
    one with the command inserted, and the cap is the same. *)
Lemma execute_command_history os clock w command timeout_arg background cwd
    env shell callback :
  let out := execute_command os clock w command timeout_arg background cwd
                             env shell callback in
  max_history (self out.1) = max_history (self w) /\
  (command_history (self out.1) = command_history (self w) \/
   command_history (self out.1)
   = command_history (_add_to_history (self w) command (clock (reads w)))).
Proof.
  unfold execute_command.
  destruct (_is_command_allowed (self w) command) as [warning [|]]; simpl.
  - destruct background; simpl.
    + split; [reflexivity | now right].
    + destruct (_execute_foreground _ _ _ _ _ _). simpl.
      split; [reflexivity | now right].
  - split; [reflexivity | now left].
Qed.

(** C6. The history starts empty with a cap of 100; an insertion keeps it
    within the cap, and so does every [execute_command]; an insertion into
    a full history drops the oldest entry and appends the new one; and
    after [max_history + k] insertions into an empty history,
    [get_command_history(max_history)] is the list of insertions without
    its first [k], in the order of insertion. *)
Theorem C6_history_bounded_fifo :
  (forall timeout allow block cwd,
      max_history (__init__ timeout allow block cwd) = 100 /\
      command_history (__init__ timeout allow block cwd) = []) /\
  (forall ex command now,
      Z.of_nat (List.length (command_history ex)) <= max_history ex ->
      Z.of_nat (List.length (command_history
                               (_add_to_history ex command now)))
      <= max_history ex) /\
  (forall os clock w command timeout_arg background cwd env shell callback,
      Z.of_nat (List.length (command_history (self w)))
      <= max_history (self w) ->
      let out := execute_command os clock w command timeout_arg background
                                 cwd env shell callback in
      Z.of_nat (List.length (command_history (self out.1)))
      <= max_history (self out.1)) /\
  (forall ex command now,
      Z.of_nat (List.length (command_history ex)) = max_history ex ->
      0 < max_history ex ->
      command_history (_add_to_history ex command now)
      = (List.tl (command_history ex)
         ++ [mkEntry command now (current_dir ex)])%list) /\
  (forall ex inserts k,
      command_history ex = [] -> 0 <= max_history ex ->
      List.length inserts = (Z.to_nat (max_history ex) + k)%nat ->
      Z.of_nat (List.length (command_history (add_all ex inserts)))
      <= max_history ex /\
      get_command_history (add_all ex inserts) (max_history ex)
      = List.skipn k (List.map (entry_of ex) inserts)).
Proof.
  assert (Hkeep : forall ex command now,
      Z.of_nat (List.length (command_history ex)) <= max_history ex ->
      Z.of_nat (List.length (command_history
                               (_add_to_history ex command now)))
      <= max_history ex).
  { intros ex command now Hinv.
    rewrite (add_to_history_lastn ex command now Hinv), lastn_length. lia. }
  split; [now intros|]. split; [exact Hkeep|]. split; [|split].
  - intros os clock w command timeout_arg background cwd env shell callback
      Hinv out.
    destruct (execute_command_history os clock w command timeout_arg
                background cwd env shell callback) as [Hm [Hh|Hh]];
      fold out in Hm, Hh; rewrite Hm, Hh; [exact Hinv|].
    apply Hkeep, Hinv.
  - intros ex command now Hfull Hpos.
    rewrite add_to_history_lastn by lia.
    destruct (command_history ex) as [|e h] eqn:E; [simpl in Hfull; lia|].
    unfold lastn. rewrite List.length_app. simpl.
    simpl in Hfull.
    now replace (S (List.length h + 1) - Z.to_nat (max_history ex))%nat
      with 1%nat by lia.
  - intros ex inserts k Hempty Hcap Hlen.
    destruct (add_all_lastn inserts ex) as [Hh Hm];
      [rewrite Hempty; simpl; lia|].
    rewrite Hempty in Hh. simpl in Hh.
    assert (List.length (List.map (entry_of ex) inserts)
            = (Z.to_nat (max_history ex) + k)%nat) as Hlen'
      by now rewrite List.length_map.
    rewrite (lastn_skipn _ k _ Hlen') in Hh.
    assert (List.length (command_history (add_all ex inserts))
            = Z.to_nat (max_history ex)) as Hsize.
    { rewrite Hh, List.length_skipn, Hlen'. lia. }
    split; [lia|].
    unfold get_command_history.
    destruct (Z.eq_dec (max_history ex) 0) as [Hz|Hnz].
    + rewrite slice_whole by now left. exact Hh.
    + rewrite slice_last by lia.
      rewrite lastn_all by lia. exact Hh.
Qed.

Lemma C6_history_bounded_fifo_witness :
  get_command_history
    (add_all (__init__ None None None "/") numbered_inserts) 100
  = List.skipn 2 (List.map (entry_of (__init__ None None None "/"))
                           numbered_inserts).
Proof.
  destruct C6_history_bounded_fifo as (_ & _ & _ & _ & Hlast).
  apply (Hlast (__init__ None None None "/") numbered_inserts 2%nat).
  - reflexivity.
  - simpl. lia.
  - reflexivity.
Defined.

(** C10. [get_command_history(count)] gives the last [count] entries for a
    count from 1 to the length of the history, and the whole history for
    the count 0 and for every count above the length. *)
Theorem C10_history_query_slice (ex : CommandExecutor) (count : Z) :
  (0 < count <= Z.of_nat (List.length (command_history ex)) ->
   get_command_history ex count
   = lastn (Z.to_nat count) (command_history ex) /\
   List.length (get_command_history ex count) = Z.to_nat count) /\
  (count = 0 -> get_command_history ex count = command_history ex) /\
  (Z.of_nat (List.length (command_history ex)) < count ->
   get_command_history ex count = command_history ex).
Proof.
  unfold get_command_history. split; [|split].
  - intros H. rewrite slice_last by exact H.
    split; [reflexivity|]. rewrite lastn_length. lia.
  - intros H. apply slice_whole. now left.
  - intros H. apply slice_whole. right. lia.
Qed.

Lemma C10_history_query_slice_witness :
  get_command_history three_commands 2
  = [mkEntry "b" 2 "/"; mkEntry "c" 3 "/"] /\
  get_command_history three_commands 0
  = [mkEntry "a" 1 "/"; mkEntry "b" 2 "/"; mkEntry "c" 3 "/"] /\
  get_command_history three_commands 5
  = [mkEntry "a" 1 "/"; mkEntry "b" 2 "/"; mkEntry "c" 3 "/"].
Proof.
  split; [|split].
  - apply (proj1 (C10_history_query_slice three_commands 2)).
    simpl. lia.
  - apply (proj1 (proj2 (C10_history_query_slice three_commands 0))).
    reflexivity.
  - apply (proj2 (proj2 (C10_history_query_slice three_commands 5))).
    simpl. lia.
Defined.

(** ** Task ids *)

Lemma to_int_proper (n : Z) :
  Z.to_int n <> Decimal.Pos Decimal.Nil /\
  Z.to_int n <> Decimal.Neg Decimal.Nil.
Proof.
  destruct n as [|q|q]; simpl; split; try discriminate;
    intros [= H]; now apply DecimalPos.Unsigned.to_uint_nonnil in H.
Qed.

Lemma str_of_int_inj (n m : Z) : str_of_int n = str_of_int m -> n = m.
Proof.
  unfold str_of_int. intros H.
  apply DecimalZ.to_int_inj.
  destruct (to_int_proper n) as [Hn1 Hn2], (to_int_proper m) as [Hm1 Hm2].
  pose proof (NilZero.isi _ Hn1 Hn2) as En.
  pose proof (NilZero.isi _ Hm1 Hm2) as Em.
  rewrite H in En. congruence.
Qed.

Lemma task_id_of_inj (n m : Z) : task_id_of n = task_id_of m -> n = m.
Proof.
  unfold task_id_of. rewrite !append_cons, !append_nil.
  intros [= H]. now apply str_of_int_inj.
Qed.

Lemma execute_command_background os clock w command timeout_arg cwd env
    shell callback :
  isAllowed (self w) command = true ->
  execute_command os clock w command timeout_arg true cwd env shell callback
  = _execute_background os clock (accepted clock w command) command
      (int_or timeout_arg (timeout (self w)))
      (str_or cwd (current_dir (self w))) env shell callback.
Proof.
  unfold isAllowed, execute_command, accepted. intros Hok.
  destruct (_is_command_allowed (self w) command) as [warning allowed] eqn:E.
  simpl in Hok. subst allowed.
  apply acceptance_logs_nothing in E as ->. simpl.
  unfold log, tick, with_self. simpl. now rewrite app_nil_r.
Qed.

(** C7, as stated, fails: two submissions made while the clock shows the
    same microsecond get the same task id, and the registry keeps one
    task for the two. *)
Lemma C7_two_submissions_one_id :
  first_submission.2 = Submitted "bg_1700000000000000" "sleep 100" 1 /\
  second_submission.2 = Submitted "bg_1700000000000000" "echo hello" 30 /\
  size (background_tasks (self second_submission.1)) = 1%nat.
Proof. repeat split; vm_compute; reflexivity. Qed.

(** C7, amended.  The ids of two accepted background submissions differ
    exactly when the clock readings taken for them, in whole
    microseconds, differ. *)
Theorem C7_task_ids_differ_iff_readings_differ
    (os : OS) (clock : Clock) (w1 w2 : World) (c1 c2 : string)
    (t1 t2 : option Z) (cwd1 cwd2 : option string) (env1 env2 : option Env)
    (sh1 sh2 : bool) (cb1 cb2 : option Callback) :
  isAllowed (self w1) c1 = true ->
  isAllowed (self w2) c2 = true ->
  exists id1 id2 to1 to2,
    (execute_command os clock w1 c1 t1 true cwd1 env1 sh1 cb1).2
    = Submitted id1 c1 to1 /\
    (execute_command os clock w2 c2 t2 true cwd2 env2 sh2 cb2).2
    = Submitted id2 c2 to2 /\
    (id1 <> id2 <-> clock (S (reads w1)) <> clock (S (reads w2))).
Proof.
  intros H1 H2.
  rewrite (execute_command_background _ _ _ _ _ _ _ _ _ H1),
          (execute_command_background _ _ _ _ _ _ _ _ _ H2).
  simpl. do 4 eexists. split; [reflexivity|]. split; [reflexivity|].
  split; intros Hne Heq; apply Hne.
  - now rewrite Heq.
  - now apply task_id_of_inj.
Qed.

Lemma C7_task_ids_differ_iff_readings_differ_witness :
  exists id1 id2 to1 to2,
    (execute_command sleepy_os fine_clock guarded_world "sleep 100"
                     (Some 1) true None None true None).2
    = Submitted id1 "sleep 100" to1 /\
    (execute_command sleepy_os fine_clock
                     (execute_command sleepy_os fine_clock guarded_world
                        "sleep 100" (Some 1) true None None true None).1
                     "echo hello" None true None None true None).2
    = Submitted id2 "echo hello" to2 /\
    id1 <> id2.
Proof.
  destruct (C7_task_ids_differ_iff_readings_differ sleepy_os fine_clock
              guarded_world
              (execute_command sleepy_os fine_clock guarded_world
                 "sleep 100" (Some 1) true None None true None).1
              "sleep 100" "echo hello" (Some 1) None None None None None
              true true None None eq_refl eq_refl)
    as (id1 & id2 & to1 & to2 & E1 & E2 & Hiff).
  exists id1, id2, to1, to2. split; [exact E1|]. split; [exact E2|].
  apply Hiff. vm_compute. discriminate.
Defined.

(** ** Clearing the registry *)

Section Clear.

Variable w : World.

Lemma clear_step_terminal acc item :
  clear_step w acc item
  = if terminal w item.2
    then ((acc.1 ++ [item.1])%list, delete item.1 acc.2)
    else acc.
Proof.
  unfold clear_step, terminal.
  destruct (store w !! item.2) as [task|]; [|reflexivity].
  now destruct (t_running task).
Qed.

Lemma clear_loop items : forall cl ts,
  foldl (clear_step w) (cl, ts) items
  = ((cl ++ removed w items)%list, delete_all (removed w items) ts).
Proof.
  induction items as [|item items IH]; intros cl ts; simpl.
  - now rewrite app_nil_r.
  - rewrite clear_step_terminal. simpl.
    destruct (terminal w item.2); rewrite IH; [|reflexivity].
    now rewrite <- List.app_assoc.
Qed.

Lemma removed_elem items id :
  id ∈ removed w items <->
  exists addr, (id, addr) ∈ items /\ terminal w addr = true.
Proof.
  induction items as [|[k a] items IH]; simpl.
  - split; [intros H; inversion H|].
    intros (addr & H & _). inversion H.
  - destruct (terminal w a) eqn:Ea.
    + rewrite elem_of_cons, IH. split.
      * intros [->|(addr & Hin & Ht)].
        -- exists a. split; [left|]; auto.
        -- exists addr. split; [now right | exact Ht].
      * intros (addr & Hin & Ht).
        apply elem_of_cons in Hin as [[= -> ->]|Hin]; [now left|].
        right. eauto.
    + rewrite IH. split.
      * intros (addr & Hin & Ht). exists addr. split; [now right|exact Ht].
      * intros (addr & Hin & Ht).
        apply elem_of_cons in Hin as [[= -> ->]|Hin]; [congruence|].
        eauto.
Qed.

Lemma removed_NoDup items : NoDup (items.*1) -> NoDup (removed w items).
Proof.
  induction items as [|[k a] items IH]; simpl; [constructor|].
  rewrite NoDup_cons. intros [Hk Hnd].
  destruct (terminal w a); [|auto].
  apply NoDup_cons. split; [|auto].
  intros Hin. apply removed_elem in Hin as (addr & Hin & _).
  apply Hk. apply list_elem_of_fmap. now exists (k, addr).
Qed.

End Clear.

Lemma lookup_delete_all (ks : list string) : forall (m : gmap string nat) k,
  (k ∈ ks -> delete_all ks m !! k = None) /\
  (k ∉ ks -> delete_all ks m !! k = m !! k).
Proof.
  unfold delete_all.
  induction ks as [|x ks IH]; intros m k; simpl.
  - split; [intros H; inversion H | reflexivity].
  - destruct (IH (delete x m) k) as [IHin IHout]. split.
    + intros Hin. destruct (decide (k ∈ ks)) as [Hk|Hk]; [auto|].
      rewrite IHout by exact Hk.
      apply elem_of_cons in Hin as [->|Hin]; [|contradiction].
      apply lookup_delete_eq.
    + intros Hout. apply not_elem_of_cons in Hout as [Hne Hout].
      rewrite IHout by exact Hout. now apply lookup_delete_ne.
Qed.

Lemma size_delete_all (ks : list string) : forall (m : gmap string nat),
  NoDup ks -> (forall k, k ∈ ks -> is_Some (m !! k)) ->
  size m = (size (delete_all ks m) + List.length ks)%nat.
Proof.
  unfold delete_all.
  induction ks as [|x ks IH]; intros m Hnd Hin; simpl; [lia|].
  apply NoDup_cons in Hnd as [Hx Hnd].
  assert (size (delete x m)
          = (size (foldl (fun m k => delete k m) (delete x m) ks)
             + List.length ks)%nat) as Hrest.
  { apply IH; [exact Hnd|].
    intros k Hk. rewrite lookup_delete_ne; [apply Hin; now right|].
    intros ->. contradiction. }
  assert (is_Some (m !! x)) as Hsome by (apply Hin; now left).
  pose proof (map_size_delete_Some x m Hsome).
  pose proof (map_size_ne_0_lookup_2 m x Hsome). lia.
Qed.

Lemma clear_background_tasks_eq (w : World) :
  clear_background_tasks w
  = let ks := removed w (map_to_list (background_tasks (self w))) in
    (log [EvLog INFO ("清除后台任务: "
                      ++ str_of_int (Z.of_nat (List.length ks)) ++ " 个")]
         (with_self (with_tasks (delete_all ks (background_tasks (self w)))
                                (self w)) w),
     (ks, List.length ks)).
Proof. unfold clear_background_tasks. now rewrite clear_loop. Qed.

Lemma removed_registry (w : World) (id : string) :
  id ∈ removed w (map_to_list (background_tasks (self w))) <->
  exists task, task_of w id = Some task /\ t_running task = false.
Proof.
  rewrite removed_elem. unfold task_of, terminal. split.
  - intros (addr & Hin & Ht). apply elem_of_map_to_list in Hin.
    rewrite Hin. simpl.
    destruct (store w !! addr) as [task|]; [|discriminate].
    exists task. split; [reflexivity|]. now destruct (t_running task).
  - intros (task & Htask & Hrun).
    destruct (background_tasks (self w) !! id) as [addr|] eqn:E;
      [|discriminate].
    simpl in Htask. exists addr. split; [now apply elem_of_map_to_list|].
    now rewrite Htask, Hrun.
Qed.

(** C9. [clear_background_tasks] takes out of the registry every task
    that is not running, and only those; the count it returns is the
    number of entries taken out; a task that is running stays in the
    registry and [get_background_task] gives it as before. *)
Theorem C9_clear_removes_exactly_terminal_tasks (w : World) :
  let out := clear_background_tasks w in
  (forall id task,
      task_of w id = Some task -> t_running task = false ->
      background_tasks (self out.1) !! id = None /\
      get_background_task out.1 id = inl ("任务不存在: " ++ id) /\
      id ∈ out.2.1) /\
  (forall id task,
      task_of w id = Some task -> t_running task = true ->
      background_tasks (self out.1) !! id = background_tasks (self w) !! id /\
      get_background_task out.1 id = get_background_task w id /\
      get_background_task out.1 id = inr (view task) /\
      id ∉ out.2.1) /\
  (forall id,
      id ∈ out.2.1 ->
      exists task, task_of w id = Some task /\ t_running task = false) /\
  out.2.2 = List.length out.2.1 /\
  NoDup out.2.1 /\
  size (background_tasks (self w))
  = (size (background_tasks (self out.1)) + out.2.2)%nat /\
  store out.1 = store w.
Proof.
  rewrite clear_background_tasks_eq. simpl.
  set (m := background_tasks (self w)).
  set (ks := removed w (map_to_list m)).
  assert (Hks : forall id, id ∈ ks <->
            exists task, task_of w id = Some task /\ t_running task = false)
    by apply removed_registry.
  split; [|split; [|split; [|split; [|split; [|split]]]]].
  - intros id task Htask Hrun.
    assert (id ∈ ks) as Hin by (apply Hks; eauto).
    pose proof (proj1 (lookup_delete_all ks m id) Hin) as Hgone.
    split; [exact Hgone|]. split; [|exact Hin].
    unfold get_background_task, task_of. simpl. now rewrite Hgone.
  - intros id task Htask Hrun.
    assert (id ∉ ks) as Hout.
    { intros Hin. apply Hks in Hin as (task' & Htask' & Hrun').
      congruence. }
    pose proof (proj2 (lookup_delete_all ks m id) Hout) as Hkept.
    split; [exact Hkept|].
    assert (task_of (log [EvLog INFO
                            ("清除后台任务: "
                             ++ str_of_int (Z.of_nat (List.length ks))
                             ++ " 个")]
                         (with_self (with_tasks (delete_all ks m) (self w))
                                    w)) id = task_of w id) as Hsame.
    { unfold task_of. simpl. now rewrite Hkept. }
    unfold get_background_task. rewrite Hsame, Htask. auto.
  - intros id Hin. now apply Hks.
  - reflexivity.
  - apply removed_NoDup, NoDup_fst_map_to_list.
  - apply size_delete_all.
    + apply removed_NoDup, NoDup_fst_map_to_list.
    + intros k Hk. apply Hks in Hk as (task & Htask & _).
      unfold task_of in Htask. fold m in Htask.
      destruct (m !! k); [eauto | discriminate].
  - reflexivity.
Qed.

(** ** The watchdog *)

Lemma wait_loop_eq p fuel : forall now t,
  wait_loop p fuel now t
  = (loop_events p fuel now, t, Done (loop_end p fuel now)).
Proof.
  induction fuel as [|fuel IH]; intros now t; simpl; [reflexivity|].
  unfold mbind, thread_bind, emit. simpl.
  destruct (exited p now); [reflexivity|].
  now rewrite IH.
Qed.

Lemma exited_mono p n m :
  (n <= m)%nat -> exited p m = false -> exited p n = false.
Proof.
  unfold exited. destruct (exit_time p) as [e|]; [|reflexivity].
  intros Hle Hm. apply Nat.leb_gt in Hm. apply Nat.leb_gt. lia.
Qed.

(** A process that is still there when the time is over keeps the loop
    turning until then. *)
Lemma loop_end_running p fuel : forall now,
  exited p (now + fuel) = false -> loop_end p fuel now = (now + fuel)%nat.
Proof.
  induction fuel as [|fuel IH]; intros now Hrun; simpl; [lia|].
  rewrite (exited_mono p now (now + S fuel)) by (lia || exact Hrun).
  rewrite IH; [lia|]. now replace (S now + fuel)%nat with (now + S fuel)%nat
    by lia.
Qed.

Lemma count_cons f e (tr : list Event) :
  count f (e :: tr) = ((if f e then 1 else 0) + count f tr)%nat.
Proof. unfold count. simpl. now destruct (f e). Qed.

(** The loop only polls and sleeps. *)
Lemma loop_events_count f p fuel : forall now,
  f EvPoll = false -> f EvSleep = false ->
  count f (loop_events p fuel now) = 0%nat.
Proof.
  induction fuel as [|fuel IH]; intros now Hp Hs; simpl; [reflexivity|].
  destruct (exited p now); rewrite !count_cons, ?Hp, ?Hs; [reflexivity|].
  now rewrite IH.
Qed.

(** Evaluation of a run of the watchdog, up to the choices of the
    outside. *)
Ltac run_thread :=
  unfold _execute_background_task, try_except, watchdog_body,
    watchdog_handler, terminate_and_wait, invoke_callback, communicate;
  unfold mbind, thread_bind, Popen, update, read, emit, raise, mret,
    thread_ret;
  simpl.

(** The callback returns or raises, each time it is called. *)
Ltac call_callbacks Ecb :=
  repeat (rewrite ?Ecb; simpl;
          match goal with
          | |- context [match ?c ?r with Returns => _ | Raises _ => _ end]
            => destruct (c r); simpl
          end).

(** Splitting the conjunctions of a goal, and nothing else. *)
Ltac conjs := repeat match goal with |- _ /\ _ => split end.

Ltac count_events :=
  repeat (rewrite count_app || rewrite count_cons);
  rewrite ?loop_events_count by reflexivity;
  simpl; try reflexivity.

(** The output is read, or not: [communicate()] returns, raises, or does
    not return. *)
Ltac read_output p :=
  let err := fresh "err" in
  destruct (descendants_exit p) as [?|] eqn:?; simpl;
  [destruct (output_error p) as [err|] eqn:?; simpl|].

(** No run of the watchdog kills. *)
Lemma watchdog_never_kills (os : OS) (task : Task) :
  count is_kill (_execute_background_task os task).1.1 = 0%nat.
Proof.
  run_thread.
  destruct (os_spawn os _) as [p|e]; simpl.
  - rewrite wait_loop_eq. simpl.
    destruct (exited p _); simpl;
      [|destruct (gone_after_terminate p _); simpl];
      try read_output p;
      destruct (t_callback task) as [cb|] eqn:Ecb; simpl;
      call_callbacks Ecb; count_events.
  - destruct (t_callback task) as [cb|] eqn:Ecb; simpl;
      call_callbacks Ecb; reflexivity.
Qed.

(** A run of the watchdog that comes to its end leaves the task not
    running and with a result. *)
Lemma watchdog_always_finishes (os : OS) (task : Task) :
  let run := _execute_background_task os task in
  ended run.2 = true ->
  t_running run.1.2 = false /\ is_Some (t_result run.1.2).
Proof.
  run_thread.
  destruct (os_spawn os _) as [p|e]; simpl.
  - rewrite wait_loop_eq. simpl.
    destruct (exited p _); simpl;
      [|destruct (gone_after_terminate p _); simpl];
      try read_output p;
      destruct (t_callback task) as [cb|] eqn:Ecb; simpl;
      call_callbacks Ecb;
      (discriminate || (intros _; split; [reflexivity | eauto])).
  - destruct (t_callback task) as [cb|] eqn:Ecb; simpl;
      call_callbacks Ecb;
      (intros _; split; [reflexivity | eauto]).
Qed.

(** A run of the watchdog that is held in [communicate()] has written
    nothing on the task but its process, and has called no callback. *)
Lemma watchdog_blocked_writes_nothing (os : OS) (task : Task) :
  let run := _execute_background_task os task in
  ended run.2 = false ->
  t_running run.1.2 = t_running task /\
  t_result run.1.2 = t_result task /\
  count is_set_result run.1.1 = 0%nat /\
  count is_callback run.1.1 = 0%nat.
Proof.
  run_thread.
  destruct (os_spawn os _) as [p|e]; simpl.
  - rewrite wait_loop_eq. simpl.
    destruct (exited p _); simpl;
      [|destruct (gone_after_terminate p _); simpl];
      try read_output p;
      destruct (t_callback task) as [cb|] eqn:Ecb; simpl;
      call_callbacks Ecb;
      (discriminate || (intros _; conjs; count_events)).
  - destruct (t_callback task) as [cb|] eqn:Ecb; simpl;
      call_callbacks Ecb; discriminate.
Qed.

(** The watchdog comes to its end unless the process is gone and a
    descendant holds its pipes for ever. *)
Lemma watchdog_ends (os : OS) (task : Task) :
  (forall p, os_spawn os (spawn_args_of task) = Spawned p ->
             descendants_exit p <> None) ->
  ended (_execute_background_task os task).2 = true.
Proof.
  intros Hpipes. run_thread. unfold spawn_args_of in Hpipes.
  destruct (os_spawn os _) as [p|e]; simpl.
  - specialize (Hpipes p eq_refl). rewrite wait_loop_eq. simpl.
    destruct (exited p _); simpl;
      [|destruct (gone_after_terminate p _); simpl];
      try read_output p; try congruence;
      destruct (t_callback task) as [cb|] eqn:Ecb; simpl;
      call_callbacks Ecb; reflexivity.
  - destruct (t_callback task) as [cb|] eqn:Ecb; simpl;
      call_callbacks Ecb; reflexivity.
Qed.

(** C2, as stated, fails: the task of [submit("sleep 100", timeout=1)] is
    given by [get_background_task] with a result whose success is true;
    and for a process that outlives [terminate()] and the wait, no kill
    is issued. *)
Lemma C2_timed_out_task_reports_success :
  get_background_task timed_out_world "bg_1700000000000001"
  = inr (mkView "bg_1700000000000001" "sleep 100" 1700000000000002 false
                (Some (Completed "" "" (-15) "sleep 100" 1 true))) /\
  success (Completed "" "" (-15) "sleep 100" 1 true) = true /\
  count is_terminate (trace stubborn_world) = 1%nat /\
  count is_kill (trace stubborn_world) = 0%nat.
Proof. repeat split; vm_compute; reflexivity. Qed.

(** C2, amended.  When the process of a background task is still running
    as its timeout elapses, the watchdog calls [terminate()] once,
    followed at once by the wait of five seconds, and never calls
    [kill()] (the record has no state of its own for a timeout).  If the
    process is still there after the wait, the task ends not running,
    with the error record of the expired wait, whose success is false.
    If the process is gone, the watchdog reads its output with
    [communicate()], which has no timeout: when the descendants that hold
    the pipes end, the task ends not running, with a result; when one of
    them never ends, the watchdog does not return, and the task stays as
    it was, running and with no result written. *)
Theorem C2_timeout_terminates_without_kill
    (os : OS) (task : Task) (p : Process) :
  os_spawn os (spawn_args_of task) = Spawned p ->
  exited p (turns (t_timeout task)) = false ->
  let run := _execute_background_task os task in
  (exists pre post,
      run.1.1 = (pre ++ [EvTerminate; EvWait] ++ post)%list /\
      count is_terminate pre = 0%nat /\ count is_terminate post = 0%nat) /\
  count is_kill run.1.1 = 0%nat /\
  (gone_after_terminate p (turns (t_timeout task)) = false ->
   ended run.2 = true /\
   t_running run.1.2 = false /\
   t_result run.1.2 = Some (Error (wait_expired_message (t_command task))) /\
   success (Error (wait_expired_message (t_command task))) = false) /\
  (gone_after_terminate p (turns (t_timeout task)) = true ->
   descendants_exit p <> None ->
   ended run.2 = true /\
   t_running run.1.2 = false /\ is_Some (t_result run.1.2)) /\
  (gone_after_terminate p (turns (t_timeout task)) = true ->
   descendants_exit p = None ->
   ended run.2 = false /\
   t_running run.1.2 = t_running task /\
   t_result run.1.2 = t_result task /\
   count is_set_result run.1.1 = 0%nat).
Proof.
  intros Hspawn Hrun run.
  assert (Hends : ended run.2 = true ->
                  t_running run.1.2 = false /\ is_Some (t_result run.1.2))
    by apply watchdog_always_finishes.
  assert (Heval : forall (P : list Event * Task * Outcome unit -> Prop),
    P (let le := loop_events p (turns (t_timeout task)) 0 in
       let t1 := set_process p task in
       let head := (EvSpawn (t_command task)
                      :: le ++ [EvPoll; EvTerminate; EvWait])%list in
       if gone_after_terminate p (turns (t_timeout task)) then
         match descendants_exit p with
         | None => ((head ++ [EvCommunicate])%list, t1, Blocked)
         | Some _ => run
         end
       else run) -> P run).
  { intros P. subst run. simpl. run_thread.
    unfold spawn_args_of in Hspawn. rewrite Hspawn. simpl.
    rewrite wait_loop_eq. simpl.
    rewrite (loop_end_running p _ 0) by exact Hrun. simpl. rewrite Hrun.
    simpl.
    destruct (gone_after_terminate p _); simpl; [|exact (fun H => H)].
    destruct (descendants_exit p); simpl; [exact (fun H => H)|].
    now rewrite <- List.app_assoc. }
  split; [|split; [apply watchdog_never_kills|split; [|split]]].
  - set (le := loop_events p (turns (t_timeout task)) 0).
    assert (Hshape : forall rest,
      ((EvSpawn (t_command task) :: le ++ [EvPoll])
       ++ [EvTerminate; EvWait] ++ rest)%list
      = EvSpawn (t_command task)
        :: (le ++ EvPoll :: EvTerminate :: EvWait :: rest)%list).
    { intros rest. simpl. now rewrite <- List.app_assoc. }
    exists (EvSpawn (t_command task) :: le ++ [EvPoll])%list.
    subst run. run_thread. unfold spawn_args_of in Hspawn. rewrite Hspawn.
    simpl. rewrite wait_loop_eq. simpl.
    rewrite (loop_end_running p _ 0) by exact Hrun. simpl. rewrite Hrun.
    simpl. fold le.
    destruct (gone_after_terminate p _); simpl;
      try read_output p;
      destruct (t_callback task) as [cb|] eqn:Ecb; simpl;
      call_callbacks Ecb;
      rewrite <- ?List.app_assoc; simpl;
      (eexists; split; [symmetry; apply Hshape|]);
      (split; [subst le; count_events | count_events]).
  - intros Hstay.
    assert (ended run.2 = true
            /\ t_result run.1.2
               = Some (Error (wait_expired_message (t_command task))))
      as [Hend Hres].
    { subst run. run_thread. unfold spawn_args_of in Hspawn.
      rewrite Hspawn. simpl. rewrite wait_loop_eq. simpl.
      rewrite (loop_end_running p _ 0) by exact Hrun. simpl.
      rewrite Hrun, Hstay. simpl.
      destruct (t_callback task) as [cb|] eqn:Ecb; simpl;
        call_callbacks Ecb; split; reflexivity. }
    conjs; [exact Hend | apply Hends, Hend | exact Hres | reflexivity].
  - intros Hgone Hpipes.
    assert (ended run.2 = true) as Hend.
    { apply watchdog_ends. intros q Hq. congruence. }
    conjs; [exact Hend | apply Hends, Hend | apply Hends, Hend].
  - intros Hgone Hpipes. apply Heval. simpl. rewrite Hgone, Hpipes. simpl.
    conjs; try reflexivity.
    set (le := loop_events p (turns (t_timeout task)) 0).
    subst le. count_events.
Qed.

Lemma C2_timeout_terminates_without_kill_witness :
  count is_kill (_execute_background_task stubborn_os stubborn_task).1.1
  = 0%nat /\
  t_result (_execute_background_task stubborn_os stubborn_task).1.2
  = Some (Error (wait_expired_message "sleep 100")) /\
  t_running (_execute_background_task follower_os follower_task).1.2
  = true /\
  t_result (_execute_background_task follower_os follower_task).1.2
  = None.
Proof.
  destruct (C2_timeout_terminates_without_kill stubborn_os stubborn_task
              (mkProcess None "" "" 0 false (-9)) eq_refl eq_refl)
    as (_ & Hkill & Hres & _).
  destruct (C2_timeout_terminates_without_kill follower_os follower_task
              shell_of_follower eq_refl eq_refl)
    as (_ & _ & _ & _ & Hheld).
  destruct (Hres eq_refl) as (_ & _ & Hr & _).
  destruct (Hheld eq_refl eq_refl) as (_ & Hrunning & Hnone & _).
  repeat split; assumption.
Defined.

(** ** The completion callback *)

(** The trace is [pre], the writing of the result, and the rest. *)
Ltac reported pre le :=
  exists pre; do 2 eexists;
  (split; [reflexivity|]);
  (split; [simpl; rewrite <- ?List.app_assoc; reflexivity|]);
  subst le; count_events; repeat split; eauto;
  try (intros [? [=]]).

(** When the callback is absent or returns, a watchdog that comes to its
    end has written the result once, and has called the callback, if any,
    once, with the result that is recorded, after writing it. *)
Lemma watchdog_reports_once_when_callback_returns (os : OS) (task : Task) :
  (forall cb r, t_callback task = Some cb -> cb r = Returns) ->
  let run := _execute_background_task os task in
  ended run.2 = true ->
  exists pre post r,
    t_result run.1.2 = Some r /\
    run.1.1 = (pre ++ [EvSetResult r; EvSetRunning false] ++ post)%list /\
    count is_set_result pre = 0%nat /\ count is_callback pre = 0%nat /\
    count is_set_result post = 0%nat /\
    count is_callback post
    = match t_callback task with Some _ => 1%nat | None => 0%nat end /\
    (is_Some (t_callback task) -> exists post', post = EvCallback r :: post').
Proof.
  intros Hreturns. run_thread.
  destruct (os_spawn os _) as [p|e]; simpl.
  - rewrite wait_loop_eq. simpl.
    set (le := loop_events p (turns (t_timeout task)) 0).
    destruct (exited p _); simpl;
      [|destruct (gone_after_terminate p _); simpl].
    + read_output p; [| |discriminate].
      * destruct (t_callback task) as [cb|] eqn:Ecb; simpl;
          rewrite ?(Hreturns cb _ eq_refl); simpl;
          rewrite <- ?List.app_assoc; simpl; intros _;
          reported (EvSpawn (t_command task)
                      :: le ++ [EvPoll; EvCommunicate;
                                EvLog ERROR ("后台任务执行失败: " ++ err)])%list
                   le.
      * destruct (t_callback task) as [cb|] eqn:Ecb; simpl;
          rewrite ?(Hreturns cb _ eq_refl); simpl;
          rewrite <- ?List.app_assoc; simpl; intros _;
          reported (EvSpawn (t_command task)
                      :: le ++ [EvPoll; EvCommunicate])%list le.
    + read_output p; [| |discriminate].
      * destruct (t_callback task) as [cb|] eqn:Ecb; simpl;
          rewrite ?(Hreturns cb _ eq_refl); simpl;
          rewrite <- ?List.app_assoc; simpl; intros _;
          reported (EvSpawn (t_command task)
                      :: le ++ [EvPoll; EvTerminate; EvWait; EvCommunicate;
                                EvLog ERROR ("后台任务执行失败: " ++ err)])%list
                   le.
      * destruct (t_callback task) as [cb|] eqn:Ecb; simpl;
          rewrite ?(Hreturns cb _ eq_refl); simpl;
          rewrite <- ?List.app_assoc; simpl; intros _;
          reported (EvSpawn (t_command task)
                      :: le ++ [EvPoll; EvTerminate; EvWait;
                                EvCommunicate])%list le.
    + destruct (t_callback task) as [cb|] eqn:Ecb; simpl;
        rewrite ?(Hreturns cb _ eq_refl); simpl;
        rewrite <- ?List.app_assoc; simpl; intros _;
        reported (EvSpawn (t_command task)
                    :: le ++ [EvPoll; EvTerminate; EvWait;
                              EvLog ERROR (wait_expired_message
                                             (t_command task))])%list
                 le.
  - set (le := @nil Event).
    destruct (t_callback task) as [cb|] eqn:Ecb; simpl;
      rewrite ?(Hreturns cb _ eq_refl); simpl; intros _;
      reported [EvLog ERROR ("后台任务执行失败: " ++ e)] le.
Qed.

(** C8 fails on the code when the callback raises: the exception is caught
    by the [except] clause of the watchdog itself, which writes the result
    a second time, replacing the completion record by an error record,
    and calls the callback a second time. *)
Lemma C8_raising_callback_rewrites_result :
  List.filter (fun e => is_set_result e || is_callback e)
              (trace raising_world)
  = [EvSetResult (Completed "" "" 0 "echo hello" 5 true);
     EvCallback (Completed "" "" 0 "echo hello" 5 true);
     EvSetResult (Error "后台任务执行失败: boom");
     EvCallback (Error "后台任务执行失败: boom")] /\
  count is_set_result (trace raising_world) = 2%nat /\
  count is_callback (trace raising_world) = 2%nat /\
  get_background_task raising_world "bg_1700000000000001"
  = inr (mkView "bg_1700000000000001" "echo hello" 1700000000000002 false
                (Some (Error "后台任务执行失败: boom"))).
Proof. repeat split; vm_compute; reflexivity. Qed.

(** ** A registry with a finished task and a running one *)

Lemma C9_clear_removes_exactly_terminal_tasks_witness :
  background_tasks (self (clear_background_tasks two_tasks_world).1)
    !! "bg_1700000000000001" = None /\
  get_background_task (clear_background_tasks two_tasks_world).1
                      "bg_1700000000000004"
  = get_background_task two_tasks_world "bg_1700000000000004".
Proof.
  destruct (C9_clear_removes_exactly_terminal_tasks two_tasks_world)
    as (Hdone & Hrunning & _).
  split.
  - eapply Hdone; [vm_compute; reflexivity | reflexivity].
  - eapply Hrunning; [vm_compute; reflexivity | reflexivity].
Defined.

Example clear_two_tasks_count :
  (clear_background_tasks two_tasks_world).2
  = (["bg_1700000000000001"], 1%nat).
Proof. vm_compute. reflexivity. Qed.

(** * Further properties of the executor *)

(** ** The history query and its reset *)

(** X1. A negative count does not count from the end:
    [get_command_history(-k)] gives the history without its first [k]
    entries.  Whatever the count, the answer is a final part of the
    history. *)
Theorem X1_history_query_negative_count (ex : CommandExecutor) (k : Z) :
  (0 < k ->
   get_command_history ex (- k)
   = List.skipn (Z.to_nat k) (command_history ex)) /\
  (exists front,
      command_history ex = (front ++ get_command_history ex k)%list).
Proof.
  unfold get_command_history, slice_from_minus. split.
  - intros Hk. rewrite Z.opp_involutive.
    destruct (Z.ltb_spec k 0); [lia|].
    destruct (Z.min_spec k (Z.of_nat (List.length (command_history ex))))
      as [[Hlt ->]|[Hge ->]]; [reflexivity|].
    rewrite Nat2Z.id.
    rewrite !List.skipn_all2; [reflexivity|lia|lia].
  - eexists. symmetry. apply List.firstn_skipn.
Qed.

Lemma X1_history_query_negative_count_witness :
  get_command_history three_commands (- 1)
  = [mkEntry "b" 2 "/"; mkEntry "c" 3 "/"].
Proof.
  apply (proj1 (X1_history_query_negative_count three_commands 1)). lia.
Defined.

(** X2. [clear_command_history] (taken on the executor alone, without
    the line it logs) returns the number of entries it drops and leaves
    a history that answers every query with the empty list;
    insertions made afterwards are kept as in a new executor: the history
    is their last [max_history]. *)
Theorem X2_clear_history_starts_afresh (ex : CommandExecutor)
    (inserts : list (string * Z)) (count : Z) :
  0 <= max_history ex ->
  (clear_command_history ex).2 = List.length (command_history ex) /\
  get_command_history (clear_command_history ex).1 count = [] /\
  command_history (add_all (clear_command_history ex).1 inserts)
  = lastn (Z.to_nat (max_history ex)) (List.map (entry_of ex) inserts).
Proof.
  intros Hcap. split; [reflexivity|]. split.
  - unfold get_command_history, slice_from_minus. simpl.
    now rewrite List.skipn_nil.
  - destruct (add_all_lastn inserts (clear_command_history ex).1) as [Hh _].
    + simpl. exact Hcap.
    + exact Hh.
Qed.

Lemma X2_clear_history_starts_afresh_witness :
  (clear_command_history three_commands).2 = 3%nat /\
  command_history
    (add_all (clear_command_history three_commands).1 [("d", 4)])
  = [mkEntry "d" 4 "/"].
Proof.
  destruct (X2_clear_history_starts_afresh three_commands [("d", 4)] 10)
    as (Hn & _ & Hh); [simpl; lia|].
  split; [exact Hn | exact Hh].
Defined.

(** ** The task listing *)

Lemma tasks_loop (w : World) (id : string) (items : list (string * nat)) :
  NoDup (items.*1) ->
  forall tasks : gmap string TaskView,
    foldl (tasks_step w) tasks items !! id
    = match (list_to_map items : gmap string nat) !! id
            ≫= fun addr => store w !! addr with
      | Some task => Some (view task)
      | None => tasks !! id
      end.
Proof.
  induction items as [|[k a] items IH]; intros Hnd tasks; [reflexivity|].
  simpl in Hnd. apply NoDup_cons in Hnd as [Hk Hnd].
  simpl. rewrite (IH Hnd). unfold tasks_step. simpl.
  destruct (decide (k = id)) as [->|Hne].
  - rewrite lookup_insert_eq.
    rewrite (not_elem_of_list_to_map_1 items id Hk). simpl.
    destruct (store w !! a) as [task|]; [|reflexivity].
    now rewrite lookup_insert_eq.
  - rewrite lookup_insert_ne by exact Hne.
    destruct (list_to_map items !! id ≫= _); [reflexivity|].
    destruct (store w !! a) as [task|]; [|reflexivity].
    now rewrite lookup_insert_ne.
Qed.

(** X3. The listing and the single query agree: [get_background_tasks]
    has an entry for an id exactly when [get_background_task] finds the
    task, and the entry is the same view; an id that is not registered
    has no entry and gets the error ["任务不存在: <id>"]. *)
Theorem X3_listing_agrees_with_get (w : World) (id : string) :
  (forall v,
      get_background_tasks w !! id = Some v <->
      get_background_task w id = inr v) /\
  (get_background_tasks w !! id = None <->
   get_background_task w id = inl ("任务不存在: " ++ id)).
Proof.
  assert (get_background_tasks w !! id = view <$> task_of w id) as Hlist.
  { unfold get_background_tasks.
    rewrite tasks_loop by apply NoDup_fst_map_to_list.
    rewrite list_to_map_to_list. unfold task_of.
    now destruct (background_tasks (self w) !! id ≫= _). }
  rewrite Hlist. unfold get_background_task.
  destruct (task_of w id) as [task|]; simpl; split.
  - intros v. split; intros [= <-]; reflexivity.
  - split; discriminate.
  - intros v. split; discriminate.
  - split; reflexivity.
Qed.

(** ** Stopping a task *)

Lemma task_of_inv (w : World) (id : string) (task : Task) :
  task_of w id = Some task ->
  exists addr,
    background_tasks (self w) !! id = Some addr /\
    store w !! addr = Some task.
Proof.
  unfold task_of.
  destruct (background_tasks (self w) !! id) as [addr|]; [|discriminate].
  simpl. eauto.
Qed.

(** X4. [stop_background_task] refuses an id that is not registered with
    ["任务不存在: <id>"], and a task that is not running with
    ["任务未运行: <id>"]; in both cases nothing is changed and no process
    is touched. *)
Theorem X4_stop_refusals_change_nothing (w : World) (id : string)
    (now : nat) :
  (background_tasks (self w) !! id = None ->
   stop_background_task w id now = (w, StopError ("任务不存在: " ++ id))) /\
  (forall task,
      task_of w id = Some task -> t_running task = false ->
      stop_background_task w id now = (w, StopError ("任务未运行: " ++ id))).
Proof.
  unfold stop_background_task. split.
  - now intros ->.
  - intros task Htask Hrun.
    apply task_of_inv in Htask as (addr & -> & ->). now rewrite Hrun.
Qed.

Lemma X4_stop_refusals_change_nothing_witness :
  stop_background_task two_tasks_world "bg_0" 0
  = (two_tasks_world, StopError "任务不存在: bg_0") /\
  stop_background_task two_tasks_world "bg_1700000000000001" 0
  = (two_tasks_world, StopError "任务未运行: bg_1700000000000001").
Proof.
  destruct (X4_stop_refusals_change_nothing two_tasks_world "bg_0" 0)
    as [Hmissing _].
  destruct (X4_stop_refusals_change_nothing two_tasks_world
              "bg_1700000000000001" 0) as [_ Hdone].
  split.
  - apply Hmissing. vm_compute. reflexivity.
  - eapply Hdone; [vm_compute; reflexivity | reflexivity].
Defined.

Lemma stop_succeeds (w : World) (id : string) (addr : nat) (task : Task)
    (now : nat) :
  background_tasks (self w) !! id = Some addr ->
  store w !! addr = Some task ->
  t_running task = true ->
  (forall p, t_process task = Some p -> gone_after_terminate p now = true) ->
  stop_background_task w id now
  = stopped (match t_process task with
             | Some _ => log [EvTerminate; EvWait] w
             | None => w
             end) addr task id.
Proof.
  intros Hreg Hstore Hrun Hgone. unfold stop_background_task.
  rewrite Hreg, Hstore, Hrun. simpl.
  destruct (t_process task) as [p|]; [|reflexivity].
  now rewrite (Hgone p eq_refl).
Qed.

(** X5. Stopping a running task whose process, if it was spawned yet,
    ends within the wait that follows [terminate()]: the call succeeds,
    the task is then given as not running with its result as it was, no
    result is written and no kill is issued; a second stop is refused
    with ["任务未运行: <id>"], and [clear_background_tasks] takes the task
    out of the registry. *)
Theorem X5_stop_marks_task_not_running (w : World) (id : string)
    (task : Task) (now : nat) :
  task_of w id = Some task ->
  t_running task = true ->
  (forall p, t_process task = Some p -> gone_after_terminate p now = true) ->
  let out := stop_background_task w id now in
  out.2 = Stopped ("已停止后台任务: " ++ id) /\
  get_background_task out.1 id
  = inr (mkView (t_id task) (t_command task) (t_start_time task) false
                (t_result task)) /\
  count is_set_result (trace out.1) = count is_set_result (trace w) /\
  count is_kill (trace out.1) = count is_kill (trace w) /\
  (forall later,
      stop_background_task out.1 id later
      = (out.1, StopError ("任务未运行: " ++ id))) /\
  background_tasks (self (clear_background_tasks out.1).1) !! id = None.
Proof.
  intros Htask Hrun Hgone out.
  destruct (task_of_inv _ _ _ Htask) as (addr & Hreg & Hstore).
  assert (task_of out.1 id = Some (set_running false task)) as Hafter.
  { subst out. rewrite (stop_succeeds w id addr task now) by assumption.
    unfold stopped, task_of. simpl.
    destruct (t_process task); simpl; rewrite Hreg; simpl;
      apply lookup_insert_eq. }
  split; [|split; [|split; [|split; [|split]]]].
  - subst out. now rewrite (stop_succeeds w id addr task now) by assumption.
  - unfold get_background_task. now rewrite Hafter.
  - subst out. rewrite (stop_succeeds w id addr task now) by assumption.
    unfold stopped. simpl. destruct (t_process task); simpl;
      rewrite ?count_app; unfold count; simpl; lia.
  - subst out. rewrite (stop_succeeds w id addr task now) by assumption.
    unfold stopped. simpl. destruct (t_process task); simpl;
      rewrite ?count_app; unfold count; simpl; lia.
  - intros later. unfold stop_background_task.
    destruct (task_of_inv _ _ _ Hafter) as (addr' & -> & ->). reflexivity.
  - rewrite clear_background_tasks_eq. simpl.
    apply lookup_delete_all. apply removed_registry.
    exists (set_running false task). split; [exact Hafter | reflexivity].
Qed.

Lemma X5_stop_marks_task_not_running_witness :
  (stop_background_task (polled_world sleep_100)
                        "bg_1700000000000001" 20).2
  = Stopped "已停止后台任务: bg_1700000000000001" /\
  get_background_task
    (stop_background_task (polled_world sleep_100)
                          "bg_1700000000000001" 20).1
    "bg_1700000000000001"
  = inr (mkView "bg_1700000000000001" "sleep 100" 1700000000000002 false
                None).
Proof.
  destruct (X5_stop_marks_task_not_running (polled_world sleep_100)
              "bg_1700000000000001" (polled_task sleep_100) 20)
    as (Hr & Hview & _).
  - vm_compute. reflexivity.
  - reflexivity.
  - intros p [= <-]. reflexivity.
  - split; [exact Hr | exact Hview].
Defined.

(** X6. Stopping a running task whose process outlives [terminate()] and
    the wait of five seconds fails with the message of the expired wait:
    no kill follows, the task object and the registry are as before, so
    the task is still given as running. *)
Theorem X6_stop_fails_when_process_survives (w : World) (id : string)
    (task : Task) (p : Process) (now : nat) :
  task_of w id = Some task ->
  t_running task = true ->
  t_process task = Some p ->
  gone_after_terminate p now = false ->
  let out := stop_background_task w id now in
  out.2 = StopError (stop_expired_message (t_command task)) /\
  self out.1 = self w /\
  store out.1 = store w /\
  get_background_task out.1 id = inr (view task) /\
  trace out.1
  = (trace w ++ [EvTerminate; EvWait;
                 EvLog ERROR (stop_expired_message (t_command task))])%list.
Proof.
  intros Htask Hrun Hp Hstay out.
  destruct (task_of_inv _ _ _ Htask) as (addr & Hreg & Hstore).
  subst out. unfold stop_background_task.
  rewrite Hreg, Hstore, Hrun, Hp. simpl. rewrite Hstay. simpl.
  repeat split.
  - unfold get_background_task, task_of. simpl. rewrite Hreg. simpl.
    now rewrite Hstore.
  - now rewrite <- List.app_assoc.
Qed.

Lemma X6_stop_fails_when_process_survives_witness :
  (stop_background_task
     (polled_world (mkProcess None "" "" 0 false (-9)))
     "bg_1700000000000001" 20).2
  = StopError
      "停止后台任务失败: Command 'sleep 100' timed out after 5 seconds".
Proof.
  destruct (X6_stop_fails_when_process_survives
              (polled_world (mkProcess None "" "" 0 false (-9)))
              "bg_1700000000000001"
              (polled_task (mkProcess None "" "" 0 false (-9)))
              (mkProcess None "" "" 0 false (-9)) 20)
    as (Hr & _).
  - vm_compute. reflexivity.
  - reflexivity.
  - reflexivity.
  - reflexivity.
  - exact Hr.
Defined.

(** ** From the submission to the result *)

(** The watchdog leaves the id, the command and the start time of its
    task as they are. *)
Lemma watchdog_keeps_identity (os : OS) (task : Task) :
  let run := _execute_background_task os task in
  t_id run.1.2 = t_id task /\
  t_command run.1.2 = t_command task /\
  t_start_time run.1.2 = t_start_time task.
Proof.
  run_thread.
  destruct (os_spawn os _) as [p|e]; simpl.
  - rewrite wait_loop_eq. simpl.
    destruct (exited p _); simpl;
      [|destruct (gone_after_terminate p _); simpl];
      try read_output p;
      destruct (t_callback task) as [cb|] eqn:Ecb; simpl;
      call_callbacks Ecb; repeat split.
  - destruct (t_callback task) as [cb|] eqn:Ecb; simpl;
      call_callbacks Ecb; repeat split.
Qed.

(** X7. An accepted background submission returns at once with the id of
    a task that [get_background_task] gives as running, without a result,
    under the submitted command; no process is spawned by the submission
    itself, and the command is in the history. *)
Theorem X7_submitted_task_is_registered_running
    (os : OS) (clock : Clock) (w : World) (command : string)
    (timeout_arg : option Z) (cwd : option string) (env : option Env)
    (shell : bool) (callback : option Callback) :
  isAllowed (self w) command = true ->
  let out := execute_command os clock w command timeout_arg true cwd env
                             shell callback in
  let id := task_id_of (clock (S (reads w))) in
  out.2 = Submitted id command (int_or timeout_arg (timeout (self w))) /\
  get_background_task out.1 id
  = inr (mkView id command (clock (S (S (reads w)))) true None) /\
  count is_spawn (trace out.1) = count is_spawn (trace w) /\
  command_history (self out.1)
  = command_history (_add_to_history (self w) command (clock (reads w))).
Proof.
  intros Hok out id. subst out.
  rewrite (execute_command_background _ _ _ _ _ _ _ _ _ Hok).
  unfold _execute_background, accepted. simpl. fold id.
  split; [reflexivity|]. split; [|split; [|reflexivity]].
  - unfold get_background_task, task_of. simpl.
    rewrite lookup_insert_eq. simpl. now rewrite lookup_insert_eq.
  - rewrite !count_app. unfold count. simpl. lia.
Qed.

Lemma X7_submitted_task_is_registered_running_witness :
  get_background_task
    (execute_command sleepy_os fine_clock guarded_world "sleep 100"
                     (Some 1) true None None true None).1
    "bg_1700000000000001"
  = inr (mkView "bg_1700000000000001" "sleep 100" 1700000000000002 true
                None).
Proof.
  destruct (X7_submitted_task_is_registered_running sleepy_os fine_clock
              guarded_world "sleep 100" (Some 1) None None true None
              eq_refl) as (_ & Hview & _).
  exact Hview.
Defined.

(** X8. Once the watchdog of a submitted task has run to its end,
    whatever the process and the callback do, [get_background_task] gives
    the task under the same id and command as not running and with a
    result: no task stays running behind a watchdog that has ended.  As
    long as the watchdog is held in [communicate()], the task is given as
    at its submission, running and without a result. *)
Theorem X8_submitted_task_ends_with_result
    (os : OS) (clock : Clock) (w : World) (command : string)
    (timeout_arg : option Z) (cwd : option string) (env : option Env)
    (shell : bool) (callback : option Callback) :
  isAllowed (self w) command = true ->
  let out := execute_command os clock w command timeout_arg true cwd env
                             shell callback in
  let id := task_id_of (clock (S (reads w))) in
  (watchdog_ended os (next_addr w) out.1 = true ->
   exists r,
     get_background_task (run_watchdog os (next_addr w) out.1) id
     = inr (mkView id command (clock (S (S (reads w)))) false (Some r))) /\
  (watchdog_ended os (next_addr w) out.1 = false ->
   get_background_task (run_watchdog os (next_addr w) out.1) id
   = inr (mkView id command (clock (S (S (reads w)))) true None)).
Proof.
  intros Hok out id. subst out.
  rewrite (execute_command_background _ _ _ _ _ _ _ _ _ Hok).
  unfold _execute_background, accepted, run_watchdog, watchdog_ended.
  simpl. fold id.
  rewrite lookup_insert_eq.
  set (task := mkTask id command _ _ _ _ shell true None None callback).
  pose proof (watchdog_always_finishes os task) as Hends.
  pose proof (watchdog_blocked_writes_nothing os task) as Hheld.
  destruct (watchdog_keeps_identity os task) as (Hid & Hcmd & Hstart).
  destruct (_execute_background_task os task) as [[tr task'] outcome].
  simpl in *.
  unfold get_background_task, task_of. simpl.
  rewrite lookup_insert_eq. simpl. rewrite lookup_insert_eq. unfold view.
  split; intros Hend.
  - destruct (Hends Hend) as (Hstop & [r Hres]). exists r.
    now rewrite Hid, Hcmd, Hstart, Hstop, Hres.
  - destruct (Hheld Hend) as (Hrunning & Hres & _).
    now rewrite Hid, Hcmd, Hstart, Hrunning, Hres.
Qed.

Lemma X8_submitted_task_ends_with_result_witness :
  exists r,
    get_background_task
      (run_watchdog quiet_os 0
         (execute_command quiet_os fine_clock guarded_world "echo hello"
                          (Some 5) true None None true None).1)
      "bg_1700000000000001"
    = inr (mkView "bg_1700000000000001" "echo hello" 1700000000000002
                  false (Some r)).
Proof.
  destruct (X8_submitted_task_ends_with_result quiet_os fine_clock
              guarded_world "echo hello" (Some 5) None None true None eq_refl)
    as [Hended _].
  apply Hended. vm_compute. reflexivity.
Defined.

(** ** Processes that end by themselves, and processes that never start *)

Lemma loop_ends_on_exit p e fuel : forall now,
  exit_time p = Some e -> (e <= now + fuel)%nat ->
  exited p (loop_end p fuel now) = true.
Proof.
  induction fuel as [|fuel IH]; intros now He Hle; simpl.
  - unfold exited. rewrite He. apply Nat.leb_le. lia.
  - destruct (exited p now) eqn:E; [exact E|].
    apply IH; [exact He | lia].
Qed.

(** X9. A background process that ends by itself within the timeout is
    never sent [terminate()].  When the descendants that hold its pipes
    end too and its output can be decoded, then, with a callback that is
    absent or returns, the recorded result is the completion record with
    the output and the exit status of the process, and its success is
    true whatever that status is.  When the output cannot be decoded,
    the recorded result is the error
    ["后台任务执行失败: <reason>"]. *)
Theorem X9_process_ending_in_time_is_not_terminated
    (os : OS) (task : Task) (p : Process) (e : nat) :
  os_spawn os (spawn_args_of task) = Spawned p ->
  exit_time p = Some e ->
  (e <= turns (t_timeout task))%nat ->
  let run := _execute_background_task os task in
  count is_terminate run.1.1 = 0%nat /\
  (descendants_exit p <> None -> output_error p = None ->
   (forall cb r, t_callback task = Some cb -> cb r = Returns) ->
   t_running run.1.2 = false /\
   t_result run.1.2
   = Some (Completed (p_stdout p) (p_stderr p) (p_returncode p)
                     (t_command task) (t_timeout task) true) /\
   success (Completed (p_stdout p) (p_stderr p) (p_returncode p)
                      (t_command task) (t_timeout task) true) = true) /\
  (forall err,
      descendants_exit p <> None -> output_error p = Some err ->
      t_running run.1.2 = false /\
      t_result run.1.2 = Some (Error ("后台任务执行失败: " ++ err))).
Proof.
  intros Hspawn He Hle. run_thread.
  unfold spawn_args_of in Hspawn. rewrite Hspawn. simpl.
  rewrite wait_loop_eq. simpl.
  pose proof (loop_ends_on_exit p e (turns (t_timeout task)) 0 He Hle)
    as Hexit.
  unfold returncode. rewrite Hexit. simpl.
  split; [|split].
  - read_output p;
      destruct (t_callback task) as [cb|] eqn:Ecb; simpl;
      call_callbacks Ecb; count_events.
  - intros Hpipes Hout Hreturns.
    destruct (descendants_exit p); [|congruence]. rewrite Hout. simpl.
    destruct (t_callback task) as [cb|] eqn:Ecb; simpl;
      rewrite ?(Hreturns cb _ eq_refl); simpl; repeat split.
  - intros err Hpipes Hout.
    destruct (descendants_exit p); [|congruence]. rewrite Hout. simpl.
    destruct (t_callback task) as [cb|] eqn:Ecb; simpl;
      call_callbacks Ecb; repeat split.
Qed.

Lemma X9_process_ending_in_time_is_not_terminated_witness :
  t_result
    (_execute_background_task
       (mkOS [] (fun _ => Spawned failing_build)) stubborn_task).1.2
  = Some (Completed "" "error: no such target" 2 "sleep 100" 1 true) /\
  t_result (_execute_background_task binary_os stubborn_task).1.2
  = Some (Error ("后台任务执行失败: " ++ undecodable_message)).
Proof.
  destruct (X9_process_ending_in_time_is_not_terminated
              (mkOS [] (fun _ => Spawned failing_build)) stubborn_task
              failing_build 3) as (_ & Hres & _).
  - reflexivity.
  - reflexivity.
  - vm_compute. lia.
  - destruct (X9_process_ending_in_time_is_not_terminated
                binary_os stubborn_task binary_output 1) as (_ & _ & Herr).
    + reflexivity.
    + reflexivity.
    + vm_compute. lia.
    + split.
      * apply Hres; [discriminate | reflexivity | intros cb r [=]].
      * apply (Herr undecodable_message); [discriminate | reflexivity].
Defined.

(** X10. When the process of a background task cannot be spawned, the
    watchdog records the error ["后台任务执行失败: <reason>"], marks the
    task as not running and calls the callback, if any, exactly once,
    with that error; nothing is polled, terminated or waited for. *)
Theorem X10_spawn_failure_in_background (os : OS) (task : Task)
    (e : string) :
  os_spawn os (spawn_args_of task) = SpawnRaises e ->
  let run := _execute_background_task os task in
  let err := Error ("后台任务执行失败: " ++ e) in
  t_result run.1.2 = Some err /\
  t_running run.1.2 = false /\
  run.1.1
  = ([EvLog ERROR ("后台任务执行失败: " ++ e); EvSetResult err;
      EvSetRunning false]
     ++ match t_callback task with
        | Some _ => [EvCallback err]
        | None => []
        end)%list.
Proof.
  intros Hspawn. run_thread.
  unfold spawn_args_of in Hspawn. rewrite Hspawn. simpl.
  destruct (t_callback task) as [cb|] eqn:Ecb; simpl;
    call_callbacks Ecb; repeat split.
Qed.

Lemma X10_spawn_failure_in_background_witness :
  t_result
    (_execute_background_task
       (mkOS [] (fun _ => SpawnRaises "[Errno 2] No such file or directory"))
       stubborn_task).1.2
  = Some (Error "后台任务执行失败: [Errno 2] No such file or directory").
Proof.
  destruct (X10_spawn_failure_in_background
              (mkOS [] (fun _ =>
                          SpawnRaises "[Errno 2] No such file or directory"))
              stubborn_task "[Errno 2] No such file or directory" eq_refl)
    as (Hres & _).
  exact Hres.
Defined.

(** ** Foreground runs and the defaults of [execute_command] *)

(** X11. A foreground command whose timeout is below the limit of the
    platform, whose process and its descendants that hold the pipes end
    within the timeout, and whose output can be decoded, returns the
    completion record with the output and the exit status of the process;
    its success is true whatever the exit status is, [kill()] is not
    called, and nothing is added to the task registry. *)
Theorem X11_foreground_completion_carries_exit_status
    (os : OS) (clock : Clock) (w : World) (command : string)
    (timeout_arg : option Z) (cwd : option string) (env : option Env)
    (shell : bool) (callback : option Callback) (p : Process) :
  isAllowed (self w) command = true ->
  let t := int_or timeout_arg (timeout (self w)) in
  let args := mkSpawnArgs command shell (str_or cwd (current_dir (self w)))
                          (env_or env (os_environ os)) in
  os_spawn os args = Spawned p ->
  t < os_timeout_limit os ->
  finishes_within p t = true ->
  output_error p = None ->
  let out := execute_command os clock w command timeout_arg false cwd env
                             shell callback in
  out.2 = Completed (p_stdout p) (p_stderr p) (p_returncode p) command t
                    false /\
  success out.2 = true /\
  count is_kill (trace out.1) = count is_kill (trace w) /\
  background_tasks (self out.1) = background_tasks (self w) /\
  store out.1 = store w.
Proof.
  intros Hok t args Hspawn Hlim Hfin Hout out. subst out.
  rewrite (execute_command_foreground _ _ _ _ _ _ _ _ _ Hok).
  fold t. unfold _execute_foreground. fold args. unfold subprocess_run.
  rewrite Hspawn, Hfin, Hout.
  destruct (Z.leb_spec (os_timeout_limit os) t); [lia|]. simpl.
  repeat split. rewrite !count_app. unfold count. simpl. lia.
Qed.

Lemma X11_foreground_completion_carries_exit_status_witness :
  (execute_command (mkOS [] (fun _ => Spawned failing_build))
                   (fun _ => 0) guarded_world "make all" None false None
                   None true None).2
  = Completed "" "error: no such target" 2 "make all" 30 false.
Proof.
  destruct (X11_foreground_completion_carries_exit_status
              (mkOS [] (fun _ => Spawned failing_build)) (fun _ => 0)
              guarded_world "make all" None None None true None
              failing_build eq_refl eq_refl eq_refl eq_refl eq_refl)
    as (Hr & _).
  exact Hr.
Defined.

(** X12. Arguments that are false in Python count as absent: a timeout
    of 0, an empty working directory and an empty environment give
    exactly what leaving the three arguments out gives.  So a foreground
    command given the timeout 0 is not cut short: if the timeout of the
    executor is below the limit of the platform, the process and the
    descendants that hold its pipes end within it, and the output can be
    decoded, the command completes, and the record carries the timeout of
    the executor. *)
Theorem X12_false_arguments_count_as_absent
    (os : OS) (clock : Clock) (w : World) (command : string)
    (background shell : bool) (callback : option Callback) :
  execute_command os clock w command (Some 0) background (Some "")
                  (Some []) shell callback
  = execute_command os clock w command None background None None shell
                    callback /\
  (forall p,
      isAllowed (self w) command = true ->
      os_spawn os (mkSpawnArgs command shell (current_dir (self w))
                               (os_environ os)) = Spawned p ->
      timeout (self w) < os_timeout_limit os ->
      finishes_within p (timeout (self w)) = true ->
      output_error p = None ->
      (execute_command os clock w command (Some 0) false (Some "")
                       (Some []) shell callback).2
      = Completed (p_stdout p) (p_stderr p) (p_returncode p) command
                  (timeout (self w)) false).
Proof.
  split; [reflexivity|].
  intros p Hok Hspawn Hlim Hfin Hout.
  rewrite (execute_command_foreground _ _ _ _ _ _ _ _ _ Hok).
  unfold _execute_foreground, subprocess_run. simpl.
  rewrite Hspawn, Hfin, Hout.
  now destruct (Z.leb_spec (os_timeout_limit os) (timeout (self w)));
    [lia|].
Qed.

Lemma X12_false_arguments_count_as_absent_witness :
  (execute_command quiet_os (fun _ => 0) guarded_world "echo hello"
                   (Some 0) false (Some "") (Some []) true None).2
  = Completed "" "" 0 "echo hello" 30 false.
Proof.
  destruct (X12_false_arguments_count_as_absent quiet_os (fun _ => 0)
              guarded_world "echo hello" false true None) as [_ Hrun].
  apply (Hrun (mkProcess (Some 1%nat) "" "" 0 true (-15)));
    reflexivity.
Defined.

(** X13. Every accepted command, in the foreground or in the background,
    is recorded in the history with the current directory of the
    executor, also when it is run in another working directory; if the
    cap of the history is positive the entry is then the last of the
    history. *)
Theorem X13_history_records_current_dir
    (os : OS) (clock : Clock) (w : World) (command : string)
    (timeout_arg : option Z) (background : bool) (cwd : option string)
    (env : option Env) (shell : bool) (callback : option Callback) :
  isAllowed (self w) command = true ->
  Z.of_nat (List.length (command_history (self w))) <= max_history (self w) ->
  0 < max_history (self w) ->
  let out := execute_command os clock w command timeout_arg background cwd
                             env shell callback in
  exists front,
    command_history (self out.1)
    = (front ++ [mkEntry command (clock (reads w)) (current_dir (self w))])%list.
Proof.
  intros Hok Hinv Hpos out.
  assert (command_history (self out.1)
          = command_history (_add_to_history (self w) command
                                             (clock (reads w)))) as ->.
  { subst out. destruct background.
    - rewrite (execute_command_background _ _ _ _ _ _ _ _ _ Hok).
      reflexivity.
    - rewrite (execute_command_foreground _ _ _ _ _ _ _ _ _ Hok).
      reflexivity. }
  rewrite add_to_history_lastn by exact Hinv.
  unfold lastn. rewrite List.length_app. simpl.
  set (k := (List.length (command_history (self w)) + 1
             - Z.to_nat (max_history (self w)))%nat).
  exists (List.skipn k (command_history (self w))).
  rewrite List.skipn_app.
  replace (k - List.length (command_history (self w)))%nat with 0%nat
    by lia.
  reflexivity.
Qed.

Lemma X13_history_records_current_dir_witness :
  exists front,
    command_history
      (self (execute_command quiet_os (fun _ => 7) guarded_world "ls"
                             None false (Some "/tmp") None true None).1)
    = (front ++ [mkEntry "ls" 7 "/home"])%list.
Proof.
  apply (X13_history_records_current_dir quiet_os (fun _ => 7)
           guarded_world "ls" None false (Some "/tmp") None true None).
  - reflexivity.
  - simpl. lia.
  - simpl. lia.
Defined.

(** ** Batches *)

Lemma successes_failures (rs : list Result) :
  (successes rs + failures rs)%nat = List.length rs.
Proof.
  unfold successes, failures.
  induction rs as [|r rs IH]; simpl; [reflexivity|].
  destruct (success r); simpl; lia.
Qed.

(** A foreground [execute_command] spawns at most one process and leaves
    the policy and the default timeout of the executor as they are. *)
Lemma execute_command_foreground_frame os clock w command timeout_arg cwd
    env shell callback :
  let out := execute_command os clock w command timeout_arg false cwd env
                             shell callback in
  (count is_spawn (trace out.1) <= count is_spawn (trace w) + 1)%nat /\
  allowed_commands (self out.1) = allowed_commands (self w) /\
  blocked_commands (self out.1) = blocked_commands (self w) /\
  timeout (self out.1) = timeout (self w) /\
  current_dir (self out.1) = current_dir (self w).
Proof.
  unfold execute_command.
  destruct (_is_command_allowed (self w) command) as [warning [|]] eqn:E;
    simpl.
  - apply acceptance_logs_nothing in E as ->.
    unfold _execute_foreground, subprocess_run.
    destruct (os_spawn os _) as [p|e]; simpl;
      [destruct (_ <=? _); simpl;
       [|destruct (finishes_within p _); simpl;
         [destruct (output_error p); simpl|]]|];
      (split; [rewrite !count_app; unfold count; simpl; lia|]);
      repeat split.
  - destruct (refusal_logs_one_warning _ _ _ E) as [msg ->].
    split; [rewrite !count_app; unfold count; simpl; lia|].
    repeat split.
Qed.

Lemma isAllowed_policy ex ex' c :
  allowed_commands ex' = allowed_commands ex ->
  blocked_commands ex' = blocked_commands ex ->
  isAllowed ex' c = isAllowed ex c.
Proof.
  intros Ha Hb. rewrite !isAllowed_eq.
  unfold allow_list_configured, in_allow_list, in_block_list.
  now rewrite Ha, Hb.
Qed.

(** What the loop adds to its counters: the results [rs] of the commands
    it ran, in order. *)
Lemma batch_loop_spec os clock timeout continue_on_error total commands :
  forall i w acc,
    let out := batch_loop os clock timeout continue_on_error total i
                          commands w acc in
    exists rs,
      out.2.1.1 = (acc.1.1 ++ rs)%list /\
      out.2.1.2 = (acc.1.2 + successes rs)%nat /\
      out.2.2 = (acc.2 + failures rs)%nat /\
      (List.length rs <= List.length commands)%nat /\
      (count is_spawn (trace out.1)
       <= count is_spawn (trace w) + List.length rs)%nat /\
      (continue_on_error = true -> List.length rs = List.length commands) /\
      (continue_on_error = false ->
       exists oks rest,
         rs = (oks ++ rest)%list /\ Forall (fun r => success r = true) oks /\
         (rest = [] /\ List.length rs = List.length commands \/
          exists r, rest = [r] /\ success r = false)).
Proof.
  induction commands as [|command commands IH]; intros i w acc; simpl.
  - exists []. rewrite List.app_nil_r. unfold successes, failures. simpl.
    conjs; try reflexivity; try lia.
    intros _. exists [], []. repeat split; auto.
  - set (w0 := log [EvLog INFO (batch_message i total command)] w).
    pose proof (execute_command_foreground_frame os clock w0 command timeout
                  None None true None) as [Hspawn _].
    assert (count is_spawn (trace w0) = count is_spawn (trace w)) as Hw0.
    { unfold w0. simpl. rewrite count_app. unfold count. simpl. lia. }
    cbv zeta in Hspawn. rewrite Hw0 in Hspawn. clear Hw0.
    destruct (execute_command os clock w0 command timeout false None None
                              true None) as [w1 result].
    simpl in Hspawn.
    destruct (success result) eqn:Hs;
      [|destruct continue_on_error eqn:Hc].
    + destruct (IH (S i) w1 ((acc.1.1 ++ [result])%list, S acc.1.2, acc.2))
        as (rs & Hr & Hsc & Hec & Hlen & Hsp & Hcont & Hstop).
      exists (result :: rs). simpl in *.
      rewrite Hr, Hsc, Hec, <- List.app_assoc.
      unfold successes, failures in *. simpl. rewrite Hs. simpl.
      conjs; try reflexivity; try lia.
      * intros Hc. specialize (Hcont Hc). lia.
      * intros Hc. destruct (Hstop Hc) as (oks & rest & -> & Hoks & Hrest).
        exists (result :: oks), rest. split; [reflexivity|].
        split; [now constructor|].
        destruct Hrest as [[-> Hl]|Hfail]; [left|right; exact Hfail].
        split; [reflexivity|]. simpl. lia.
    + destruct (IH (S i) w1 ((acc.1.1 ++ [result])%list, acc.1.2, S acc.2))
        as (rs & Hr & Hsc & Hec & Hlen & Hsp & Hcont & Hstop).
      exists (result :: rs). simpl in *.
      rewrite Hr, Hsc, Hec, <- List.app_assoc.
      unfold successes, failures in *. simpl. rewrite Hs. simpl.
      specialize (Hcont eq_refl).
      conjs; try reflexivity; try lia; try discriminate.
    + exists [result]. unfold successes, failures. simpl. rewrite Hs. simpl.
      conjs; try reflexivity; try lia; try discriminate.
      intros _. exists [], [result]. split; [reflexivity|].
      split; [constructor|]. right. eauto.
Qed.

(** X14. The counts of [batch_execute] add up: every result is counted
    once, as a success or as an error; there are never more results than
    commands, nor more processes spawned than results; ["total"] is the
    number of commands given, also when the batch stops early;
    ["success"] tells that no error was counted; and with
    [continue_on_error] every command has its result. *)
Theorem X14_batch_counts_add_up
    (os : OS) (clock : Clock) (w : World) (commands : list string)
    (timeout : option Z) (continue_on_error : bool) :
  let out := batch_execute os clock w commands timeout continue_on_error in
  b_total out.2 = List.length commands /\
  b_commands out.2 = commands /\
  b_success_count out.2 = successes (b_results out.2) /\
  b_error_count out.2 = failures (b_results out.2) /\
  (b_success_count out.2 + b_error_count out.2)%nat
  = List.length (b_results out.2) /\
  (List.length (b_results out.2) <= b_total out.2)%nat /\
  (count is_spawn (trace out.1)
   <= count is_spawn (trace w) + List.length (b_results out.2))%nat /\
  (b_success out.2 = true <-> b_error_count out.2 = 0%nat) /\
  (continue_on_error = true ->
   List.length (b_results out.2) = List.length commands).
Proof.
  unfold batch_execute.
  destruct (batch_loop_spec os clock timeout continue_on_error
              (List.length commands) commands 0 w ([], 0%nat, 0%nat))
    as (rs & Hr & Hsc & Hec & Hlen & Hsp & Hcont & _).
  destruct (batch_loop _ _ _ _ _ _ _ _ _) as [w' [[results sc] ec]].
  simpl in *. subst results sc ec.
  pose proof (successes_failures rs).
  repeat split; try lia; try assumption.
  - intros H0. now apply Nat.eqb_eq in H0.
  - intros H0. now apply Nat.eqb_eq.
Qed.

(** X15. Without [continue_on_error] a batch stops at the first command
    that does not succeed: at most one error is counted, every result
    before the last is a success, and either all commands ran and
    succeeded, or the last result is the failure and ["success"] is
    false. *)
Theorem X15_batch_stops_at_first_failure
    (os : OS) (clock : Clock) (w : World) (commands : list string)
    (timeout : option Z) :
  let out := batch_execute os clock w commands timeout false in
  (b_error_count out.2 <= 1)%nat /\
  exists oks rest,
    b_results out.2 = (oks ++ rest)%list /\
    Forall (fun r => success r = true) oks /\
    (rest = [] /\ List.length (b_results out.2) = List.length commands /\
     b_success out.2 = true
     \/
     exists r, rest = [r] /\ success r = false /\ b_success out.2 = false /\
               b_error_count out.2 = 1%nat).
Proof.
  unfold batch_execute.
  destruct (batch_loop_spec os clock timeout false
              (List.length commands) commands 0 w ([], 0%nat, 0%nat))
    as (rs & Hr & Hsc & Hec & Hlen & Hsp & _ & Hstop).
  destruct (Hstop eq_refl) as (oks & rest & Hrs & Hoks & Hrest).
  destruct (batch_loop _ _ _ _ _ _ _ _ _) as [w' [[results sc] ec]].
  simpl in *. subst results sc ec rs.
  assert (failures oks = 0%nat) as Hnone.
  { unfold failures. clear -Hoks.
    induction Hoks as [|r oks Hr _ IH]; simpl; [reflexivity|].
    now rewrite Hr. }
  assert (failures (oks ++ rest) = failures rest) as Hf.
  { unfold failures in *. rewrite List.filter_app, List.length_app. lia. }
  rewrite Hf.
  destruct Hrest as [[-> Hl]|(r & -> & Hfail)].
  - split; [unfold failures; simpl; lia|].
    exists oks, []. split; [reflexivity|]. split; [exact Hoks|]. left.
    split; [reflexivity|]. split; [exact Hl | reflexivity].
  - assert (failures [r] = 1%nat) as H1
      by (unfold failures; simpl; now rewrite Hfail).
    rewrite H1. split; [lia|].
    exists oks, [r]. split; [reflexivity|]. split; [exact Hoks|]. right.
    exists r. split; [reflexivity|]. split; [exact Hfail|].
    split; reflexivity.
Qed.

Lemma batch_loop_all_complete os clock timeout_arg continue_on_error total
    commands :
  forall i w acc,
    (forall c, In c commands -> isAllowed (self w) c = true) ->
    int_or timeout_arg (timeout (self w)) < os_timeout_limit os ->
    (forall args, exists p,
        os_spawn os args = Spawned p /\
        finishes_within p (int_or timeout_arg (timeout (self w))) = true /\
        output_error p = None) ->
    let out := batch_loop os clock timeout_arg continue_on_error total i
                          commands w acc in
    out.2.2 = acc.2 /\
    out.2.1.2 = (acc.1.2 + List.length commands)%nat /\
    exists rs,
      out.2.1.1 = (acc.1.1 ++ rs)%list /\
      List.length rs = List.length commands /\
      Forall (fun r => success r = true /\ get_error r = None) rs.
Proof.
  induction commands as [|command commands IH];
    intros i w acc Hok Hlim Hos; simpl.
  - split; [reflexivity|]. split; [lia|]. exists [].
    rewrite List.app_nil_r. repeat constructor.
  - set (w0 := log [EvLog INFO (batch_message i total command)] w).
    assert (isAllowed (self w0) command = true) as Hcmd
      by (apply Hok; now left).
    pose proof (execute_command_foreground_frame os clock w0 command timeout_arg
                  None None true None) as (_ & Ha & Hb & Ht & _).
    pose proof (execute_command_foreground os clock w0 command timeout_arg None
                  None true None Hcmd) as Hrun.
    destruct (Hos (mkSpawnArgs command true
                     (str_or None (current_dir (self w0)))
                     (env_or None (os_environ os))))
      as (p & Hp & Hfin & Hout).
    unfold _execute_foreground, subprocess_run in Hrun.
    rewrite Hp in Hrun.
    change (self w) with (self w0) in Hfin, Hlim.
    rewrite Hfin, Hout in Hrun.
    destruct (Z.leb_spec (os_timeout_limit os)
                (int_or timeout_arg (timeout (self w0)))); [lia|].
    simpl in Hrun.
    destruct (execute_command os clock w0 command timeout_arg false None None
                              true None) as [w1 result].
    injection Hrun as Hw1 Hres. simpl in Ha, Hb, Ht.
    rewrite Hres. simpl.
    destruct (IH (S i) w1
                ((acc.1.1 ++ [Completed (p_stdout p) (p_stderr p)
                               (p_returncode p) command
                               (int_or timeout_arg (timeout (self w0)))
                               false])%list, S acc.1.2, acc.2))
      as (Hec & Hsc & rs & Hr & Hlen & Hall).
    + intros c Hc. rewrite (isAllowed_policy (self w0) (self w1) c Ha Hb).
      apply Hok. now right.
    + now rewrite Ht.
    + intros args. rewrite Ht. apply Hos.
    + simpl in *.
      split; [exact Hec|]. split; [lia|].
      eexists (_ :: rs). rewrite Hr, <- List.app_assoc. simpl.
      split; [reflexivity|]. split; [lia|].
      constructor; [split; reflexivity | exact Hall].
Qed.

(** X16. When the policy allows every command of a batch, the timeout is
    below the limit of the platform, and every process ends within the
    timeout, with the descendants that hold its pipes, and with an output
    that can be decoded, the batch reports success: one result for each
    command, all counted as successes and none carrying an error,
    whatever the exit statuses of the processes are. *)
Theorem X16_batch_of_completing_commands_succeeds
    (os : OS) (clock : Clock) (w : World) (commands : list string)
    (timeout_arg : option Z) (continue_on_error : bool) :
  (forall c, In c commands -> isAllowed (self w) c = true) ->
  int_or timeout_arg (timeout (self w)) < os_timeout_limit os ->
  (forall args, exists p,
      os_spawn os args = Spawned p /\
      finishes_within p (int_or timeout_arg (timeout (self w))) = true /\
      output_error p = None) ->
  let out := batch_execute os clock w commands timeout_arg
                           continue_on_error in
  b_success out.2 = true /\
  b_success_count out.2 = List.length commands /\
  b_error_count out.2 = 0%nat /\
  List.length (b_results out.2) = List.length commands /\
  Forall (fun r => success r = true /\ get_error r = None) (b_results out.2).
Proof.
  intros Hok Hlim Hos. unfold batch_execute.
  destruct (batch_loop_all_complete os clock timeout_arg continue_on_error
              (List.length commands) commands 0 w ([], 0%nat, 0%nat)
              Hok Hlim Hos) as (Hec & Hsc & rs & Hr & Hlen & Hall).
  destruct (batch_loop _ _ _ _ _ _ _ _ _) as [w' [[results sc] ec]].
  simpl in *. subst results sc ec.
  split; [reflexivity|]. split; [reflexivity|]. split; [reflexivity|].
  split; [exact Hlen | exact Hall].
Qed.

Lemma X16_batch_of_completing_commands_succeeds_witness :
  b_success
    (batch_execute (mkOS [] (fun _ => Spawned failing_build)) (fun _ => 0)
                   guarded_world ["make a"; "make b"] None false).2
  = true.
Proof.
  destruct (X16_batch_of_completing_commands_succeeds
              (mkOS [] (fun _ => Spawned failing_build)) (fun _ => 0)
              guarded_world ["make a"; "make b"] None false)
    as (Hs & _).
  - intros c [<-|[<-|[]]]; reflexivity.
  - reflexivity.
  - intros args. exists failing_build. repeat split; reflexivity.
  - exact Hs.
Defined.

(** ** The current directory *)

(** X17. [set_current_dir] changes nothing when the absolute path does
    not exist (["路径不存在: ..."]) or is not a directory
    (["路径不是目录: ..."]); otherwise it returns the absolute path and
    [get_current_dir] gives it from then on, while the history, the
    policy and the tasks of the executor are as before. *)
Theorem X17_set_current_dir (fs : FileSystem) (w : World) (path : string) :
  let out := set_current_dir fs w path in
  let abs_path := abspath fs path in
  (path_exists fs abs_path = false ->
   out = (w, DirError ("路径不存在: " ++ abs_path))) /\
  (path_exists fs abs_path = true -> path_isdir fs abs_path = false ->
   out = (w, DirError ("路径不是目录: " ++ abs_path))) /\
  (path_exists fs abs_path = true -> path_isdir fs abs_path = true ->
   out.2 = DirSet ("已设置当前目录: " ++ abs_path) abs_path /\
   get_current_dir out.1 = abs_path /\
   command_history (self out.1) = command_history (self w) /\
   background_tasks (self out.1) = background_tasks (self w) /\
   (forall c, isAllowed (self out.1) c = isAllowed (self w) c) /\
   store out.1 = store w).
Proof.
  unfold set_current_dir. cbv zeta. split; [|split].
  - now intros ->.
  - now intros -> ->.
  - intros -> ->. simpl. repeat split.
Qed.

(** X18. After a successful [set_current_dir], an accepted foreground
    command given no working directory is run in the new current
    directory: it returns what [_execute_foreground] returns there, and
    the trace gains the announcement of the command and the events of
    that run. *)
Theorem X18_commands_run_in_current_dir
    (fs : FileSystem) (os : OS) (clock : Clock) (w : World)
    (path command : string) (timeout_arg : option Z) (env : option Env)
    (shell : bool) (callback : option Callback) :
  path_exists fs (abspath fs path) = true ->
  path_isdir fs (abspath fs path) = true ->
  isAllowed (self w) command = true ->
  let w1 := (set_current_dir fs w path).1 in
  let out := execute_command os clock w1 command timeout_arg false None env
                             shell callback in
  let fg := _execute_foreground os command
              (int_or timeout_arg (timeout (self w))) (abspath fs path) env
              shell in
  out.2 = fg.2 /\
  trace out.1
  = (trace w1 ++ [EvLog INFO ("执行命令: " ++ command)] ++ fg.1)%list.
Proof.
  intros Hex Hdir Hok w1 out fg.
  assert (w1 = log [EvLog INFO ("设置当前目录: " ++ abspath fs path)]
                   (with_self (with_current_dir (abspath fs path) (self w))
                              w)) as Hw1.
  { unfold w1, set_current_dir. now rewrite Hex, Hdir. }
  assert (isAllowed (self w1) command = true) as Hok1.
  { rewrite Hw1. simpl.
    now rewrite (isAllowed_policy (self w)
                   (with_current_dir (abspath fs path) (self w)) command
                   eq_refl eq_refl). }
  subst out fg.
  rewrite (execute_command_foreground _ _ _ _ _ _ _ _ _ Hok1).
  rewrite Hw1. simpl.
  split; [reflexivity|]. now rewrite <- !List.app_assoc.
Qed.

Lemma X18_commands_run_in_current_dir_witness :
  (execute_command quiet_os (fun _ => 0)
                   (set_current_dir home_fs guarded_world "projects").1
                   "ls" None false None None true None).2
  = (_execute_foreground quiet_os "ls" 30 "/home/projects" None true).2.
Proof.
  destruct (X18_commands_run_in_current_dir home_fs quiet_os (fun _ => 0)
              guarded_world "projects" "ls" None None true None
              eq_refl eq_refl eq_refl) as [Hr _].
  exact Hr.
Defined.

Lemma X17_set_current_dir_witness :
  set_current_dir home_fs guarded_world "missing"
  = (guarded_world, DirError "路径不存在: /home/missing") /\
  get_current_dir (set_current_dir home_fs guarded_world "projects").1
  = "/home/projects".
Proof.
  split.
  - apply (proj1 (X17_set_current_dir home_fs guarded_world "missing")).
    reflexivity.
  - apply (proj2 (proj2 (X17_set_current_dir home_fs guarded_world
                           "projects"))); reflexivity.
Defined.

(** ** Scripts *)

Lemma append_associative (a b c : string) : a ++ b ++ c = (a ++ b) ++ c.
Proof.
  induction a as [|x a IH]; [reflexivity|].
  rewrite (append_cons x a (b ++ c)), (append_cons x a b),
    (append_cons x (a ++ b) c).
  now rewrite IH.
Qed.

Lemma split_dot_without_dot (s : string) :
  has_dot s = false -> split_dot s = [s].
Proof.
  induction s as [|a s IH]; simpl; [reflexivity|].
  destruct (Ascii.eqb a "."); [discriminate|]. simpl.
  intros H. now rewrite (IH H).
Qed.

Lemma split_dot_with_dot (s : string) :
  has_dot s = true -> exists x y ys, split_dot s = x :: y :: ys.
Proof.
  induction s as [|a s IH]; simpl; [discriminate|].
  destruct (Ascii.eqb a "."); simpl.
  - intros _. destruct (has_dot s) eqn:E.
    + destruct (IH eq_refl) as (x & y & ys & ->). eauto.
    + rewrite (split_dot_without_dot s E). eauto.
  - intros H. destruct (IH H) as (x & y & ys & ->). eauto.
Qed.

Lemma last_after_dot (s : string) :
  has_dot s = true ->
  exists front,
    s = front ++ "." ++ List.last (split_dot s) EmptyString /\
    has_dot (List.last (split_dot s) EmptyString) = false.
Proof.
  induction s as [|a s IH]; [discriminate|].
  simpl. destruct (Ascii.eqb_spec a ".") as [->|Hne]; simpl.
  - intros _. destruct (has_dot s) eqn:E.
    + destruct (IH eq_refl) as (front & Hs & Hnd).
      destruct (split_dot_with_dot s E) as (x & y & ys & Hsplit).
      rewrite Hsplit in *. exists (String "." front).
      split; [|exact Hnd].
      rewrite append_cons. f_equal. exact Hs.
    + rewrite (split_dot_without_dot s E). simpl.
      exists EmptyString. split; [reflexivity | exact E].
  - intros H. destruct (IH H) as (front & Hs & Hnd).
    destruct (split_dot_with_dot s H) as (x & y & ys & Hsplit).
    rewrite Hsplit in *. exists (String a front).
    split; [|exact Hnd].
    rewrite append_cons. f_equal. exact Hs.
Qed.

(** X19. The suffix of the temporary script file is a dot followed by
    what comes after the last dot of the interpreter's name, or by the
    whole name when it has no dot: the part after the dot of the suffix
    never contains a dot, and the interpreter's name ends with it. *)
Theorem X19_script_suffix_is_last_component (interpreter : string) :
  exists front ext,
    script_suffix interpreter = "." ++ ext /\
    has_dot ext = false /\
    interpreter = front ++ ext /\
    (has_dot interpreter = false -> ext = interpreter) /\
    (has_dot interpreter = true ->
     exists front', front = front' ++ ".").
Proof.
  unfold script_suffix. destruct (has_dot interpreter) eqn:E.
  - destruct (last_after_dot interpreter E) as (front & Hs & Hnd).
    exists (front ++ "."), (List.last (split_dot interpreter) EmptyString).
    split; [reflexivity|]. split; [exact Hnd|]. split.
    + rewrite Hs at 1. apply append_associative.
    + split; [discriminate|]. intros _. now exists front.
  - exists EmptyString, interpreter.
    split; [reflexivity|]. split; [exact E|]. split; [reflexivity|].
    split; [reflexivity | discriminate].
Qed.

(** X20. [execute_script] runs nothing when the temporary file cannot be
    written: it returns ["执行脚本失败: <reason>"] and leaves the executor
    and the tasks as they are.  When the file is written, the script is
    run through [execute_command] as the command made of the
    interpreter, the file name and the arguments joined by spaces, and
    the file is unlinked whatever comes back; so a script whose command
    the policy denies is written and removed without being run or
    recorded in the history.  No arguments and an empty list of
    arguments make the same command. *)
Theorem X20_script_runs_through_execute_command
    (tmp : string -> string + string) (os : OS) (clock : Clock) (w : World)
    (script interpreter : string) (timeout_arg : option Z)
    (args : option (list string)) :
  let out := execute_script tmp os clock w script interpreter timeout_arg
                            args in
  (forall e,
      tmp (script_suffix interpreter) = inl e ->
      out.1.2 = Error ("执行脚本失败: " ++ e) /\ out.2 = [] /\
      self out.1.1 = self w /\ store out.1.1 = store w /\
      count is_spawn (trace out.1.1) = count is_spawn (trace w)) /\
  (forall temp_file_path,
      tmp (script_suffix interpreter) = inr temp_file_path ->
      out.1 = execute_command os clock w
                (script_command interpreter temp_file_path args)
                timeout_arg false None None true None /\
      out.2 = [FileWritten temp_file_path script;
               FileUnlinked temp_file_path] /\
      (isAllowed (self w)
                 (script_command interpreter temp_file_path args) = false ->
       out.1.2 = Error denied_message /\ self out.1.1 = self w /\
       count is_spawn (trace out.1.1) = count is_spawn (trace w))) /\
  (forall temp_file_path,
      script_command interpreter temp_file_path (Some [])
      = script_command interpreter temp_file_path None).
Proof.
  unfold execute_script. split; [|split].
  - intros e ->. simpl. conjs; try reflexivity.
    rewrite count_app. unfold count. simpl. lia.
  - intros temp_file_path ->.
    destruct (execute_command os clock w _ timeout_arg false None None true
                              None) as [w1 r] eqn:E.
    simpl. split; [reflexivity|]. split; [reflexivity|].
    intros Hdenied. unfold isAllowed in Hdenied.
    unfold execute_command in E.
    destruct (_is_command_allowed (self w) _) as [warning allowed] eqn:Ep.
    simpl in Hdenied. subst allowed. simpl in E.
    injection E as <- <-.
    destruct (refusal_logs_one_warning _ _ _ Ep) as [msg ->].
    simpl. conjs; try reflexivity.
    rewrite count_app. unfold count. simpl. lia.
  - reflexivity.
Qed.

Lemma X20_script_runs_through_execute_command_witness :
  (execute_script (fun _ => inl "[Errno 28] No space left on device")
                  quiet_os (fun _ => 0) guarded_world "print(1)" "python"
                  None None).1.2
  = Error "执行脚本失败: [Errno 28] No space left on device" /\
  (execute_script (fun suffix => inr ("/tmp/tmpab12" ++ suffix)) quiet_os
                  (fun _ => 0) guarded_world "import os" "rm -rf / ;python"
                  None None)
  = (log [EvLog WARNING
            "命令被禁止执行: rm -rf / ;python /tmp/tmpab12.rm -rf / ;python"]
         guarded_world,
     Error denied_message,
     [FileWritten "/tmp/tmpab12.rm -rf / ;python" "import os";
      FileUnlinked "/tmp/tmpab12.rm -rf / ;python"]).
Proof.
  split.
  - apply (proj1 (X20_script_runs_through_execute_command
                    (fun _ => inl "[Errno 28] No space left on device")
                    quiet_os (fun _ => 0) guarded_world "print(1)" "python"
                    None None)).
    reflexivity.
  - destruct (proj1 (proj2 (X20_script_runs_through_execute_command
                (fun suffix => inr ("/tmp/tmpab12" ++ suffix)) quiet_os
                (fun _ => 0) guarded_world "import os" "rm -rf / ;python"
                None None)) "/tmp/tmpab12.rm -rf / ;python" eq_refl)
      as (Hrun & Hfiles & _).
    rewrite (surjective_pairing (execute_script _ _ _ _ _ _ _ _)).
    rewrite Hrun, Hfiles. reflexivity.
Defined.

(** ** Where [kill()] is called *)

(** X21. [kill()] is called in one situation only: in a foreground run
    that spawned its process and does not return a success, which is a
    run that timed out, that was given a timeout at or above the limit
    of the platform, or whose output cannot be decoded.  It is called
    once, on the process that was spawned, which under [shell=True] is
    the shell and not the commands the shell started.  A foreground run
    that returns a success, is denied, or fails to spawn, a background
    submission and a run of a watchdog call no [kill()]. *)
Theorem X21_kill_only_on_failed_foreground_run
    (os : OS) (clock : Clock) (w : World) (command : string)
    (timeout_arg : option Z) (cwd : option string) (env : option Env)
    (shell : bool) (callback : option Callback) (addr : nat) :
  let t := int_or timeout_arg (timeout (self w)) in
  let args := mkSpawnArgs command shell (str_or cwd (current_dir (self w)))
                          (env_or env (os_environ os)) in
  let fg := execute_command os clock w command timeout_arg false cwd env
                            shell callback in
  let bg := execute_command os clock w command timeout_arg true cwd env
                            shell callback in
  (fg.2 = Error (timeout_message t) ->
   count is_kill (trace fg.1) = S (count is_kill (trace w))) /\
  (forall p,
      isAllowed (self w) command = true -> os_spawn os args = Spawned p ->
      success fg.2 = false ->
      count is_kill (trace fg.1) = S (count is_kill (trace w))) /\
  (success fg.2 = true ->
   count is_kill (trace fg.1) = count is_kill (trace w)) /\
  (isAllowed (self w) command = false ->
   count is_kill (trace fg.1) = count is_kill (trace w)) /\
  (forall e,
      os_spawn os args = SpawnRaises e ->
      count is_kill (trace fg.1) = count is_kill (trace w)) /\
  count is_kill (trace bg.1) = count is_kill (trace w) /\
  count is_kill (trace (run_watchdog os addr w)) = count is_kill (trace w).
Proof.
  intros t args fg bg.
  assert (Hdenied : isAllowed (self w) command = false ->
                    fg.2 = Error denied_message /\
                    count is_kill (trace fg.1) = count is_kill (trace w)).
  { intros Hno. subst fg. unfold isAllowed in Hno. unfold execute_command.
    destruct (_is_command_allowed (self w) command) as [warning allowed]
      eqn:E.
    simpl in Hno. subst allowed. simpl.
    destruct (refusal_logs_one_warning _ _ _ E) as [msg ->].
    split; [reflexivity|]. rewrite !count_app. unfold count. simpl. lia. }
  assert (Hrun : isAllowed (self w) command = true ->
            match os_spawn os args with
            | SpawnRaises e =>
                fg.2 = Error (failure_message e) /\
                count is_kill (trace fg.1) = count is_kill (trace w)
            | Spawned p =>
                (success fg.2 = true /\
                 count is_kill (trace fg.1) = count is_kill (trace w))
                \/
                (success fg.2 = false /\
                 (fg.2 = Error (timeout_message t)
                  \/ exists e, fg.2 = Error (failure_message e)) /\
                 count is_kill (trace fg.1) = S (count is_kill (trace w)))
            end).
  { intros Hok. subst fg.
    rewrite (execute_command_foreground _ _ _ _ _ _ _ _ _ Hok).
    fold t. unfold _execute_foreground. fold args. unfold subprocess_run.
    destruct (os_spawn os args) as [p|e]; simpl;
      [destruct (_ <=? _); simpl;
       [|destruct (finishes_within p _); simpl;
         [destruct (output_error p); simpl|]]|];
      try (right; split; [reflexivity|]; split; [eauto|]);
      try (left; split; [reflexivity|]);
      try (split; [reflexivity|]);
      rewrite !count_app; unfold count; simpl; lia. }
  destruct (messages_distinct "" t) as (_ & _ & Htd).
  destruct (isAllowed (self w) command) eqn:Hok.
  - specialize (Hrun eq_refl). clear Hdenied.
    destruct (os_spawn os args) as [p|e] eqn:Hspawn.
    + conjs.
      * intros Heq.
        destruct Hrun as [[Hs _]|(_ & _ & Hk)]; [|exact Hk].
        rewrite Heq in Hs. discriminate Hs.
      * intros q _ _ Hfail.
        destruct Hrun as [[Hs _]|(_ & _ & Hk)]; [congruence | exact Hk].
      * intros Hs.
        destruct Hrun as [[_ Hk]|(Hf & _)]; [exact Hk | congruence].
      * discriminate.
      * discriminate.
      * subst bg.
        rewrite (execute_command_background _ _ _ _ _ _ _ _ _ Hok).
        unfold _execute_background, accepted. simpl.
        rewrite !count_app. unfold count. simpl. lia.
      * unfold run_watchdog.
        destruct (store w !! addr) as [task|]; [|reflexivity].
        pose proof (watchdog_never_kills os task) as Hkill.
        destruct (_execute_background_task os task) as [[tr task'] outcome].
        simpl in *. rewrite count_app. lia.
    + destruct Hrun as [Hr Hk]. conjs.
      * intros Heq. rewrite Hr in Heq. injection Heq as Heq.
        now destruct (messages_distinct e t) as (Hft & _).
      * discriminate.
      * intros _. exact Hk.
      * discriminate.
      * intros _ _. exact Hk.
      * subst bg.
        rewrite (execute_command_background _ _ _ _ _ _ _ _ _ Hok).
        unfold _execute_background, accepted. simpl.
        rewrite !count_app. unfold count. simpl. lia.
      * unfold run_watchdog.
        destruct (store w !! addr) as [task|]; [|reflexivity].
        pose proof (watchdog_never_kills os task) as Hkill.
        destruct (_execute_background_task os task) as [[tr task'] outcome].
        simpl in *. rewrite count_app. lia.
  - destruct (Hdenied eq_refl) as [Hr Hk]. conjs.
    + intros Heq. rewrite Hr in Heq. injection Heq as Heq.
      now symmetry in Heq.
    + discriminate.
    + intros _. exact Hk.
    + intros _. exact Hk.
    + intros _ _. exact Hk.
    + subst bg. unfold execute_command. unfold isAllowed in Hok.
      destruct (_is_command_allowed (self w) command) as [warning allowed]
        eqn:E.
      simpl in Hok. subst allowed. simpl.
      destruct (refusal_logs_one_warning _ _ _ E) as [msg ->].
      rewrite !count_app. unfold count. simpl. lia.
    + unfold run_watchdog.
      destruct (store w !! addr) as [task|]; [|reflexivity].
      pose proof (watchdog_never_kills os task) as Hkill.
      destruct (_execute_background_task os task) as [[tr task'] outcome].
      simpl in *. rewrite count_app. lia.
Qed.

Lemma X21_kill_only_on_failed_foreground_run_witness :
  count is_kill
    (trace (execute_command sleepy_os (fun _ => 0) guarded_world
                            "sleep 100" (Some 1) false None None true
                            None).1)
  = 1%nat /\
  count is_kill
    (trace (execute_command binary_os (fun _ => 0) guarded_world
                            "cat /bin/ls" (Some 1) false None None true
                            None).1)
  = 1%nat /\
  count is_kill
    (trace (execute_command missing_command_os (fun _ => 0) guarded_world
                            "nosuchcmd" (Some 1) false None None true
                            None).1)
  = 0%nat.
Proof.
  split; [|split].
  - apply (proj1 (X21_kill_only_on_failed_foreground_run sleepy_os
                    (fun _ => 0) guarded_world "sleep 100" (Some 1) None
                    None true None 0)).
    reflexivity.
  - destruct (X21_kill_only_on_failed_foreground_run binary_os
                (fun _ => 0) guarded_world "cat /bin/ls" (Some 1) None
                None true None 0) as (_ & Hfailed & _).
    apply (Hfailed binary_output); reflexivity.
  - destruct (X21_kill_only_on_failed_foreground_run missing_command_os
                (fun _ => 0) guarded_world "nosuchcmd" (Some 1) None
                None true None 0) as (_ & _ & Hdone & _).
    apply Hdone. reflexivity.
Defined.

(** ** Tasks do not disturb each other *)

Lemma addresses_fresh_submit os clock w command timeout cwd env shell
    callback :
  addresses_fresh w ->
  addresses_fresh
    (_execute_background os clock w command timeout cwd env shell callback).1.
Proof.
  intros [Hstore Hreg]. unfold _execute_background, addresses_fresh. simpl.
  split.
  - apply map_Forall_insert_2; [lia|].
    eapply map_Forall_impl; [exact Hstore|]. simpl. intros; lia.
  - apply map_Forall_insert_2; [lia|].
    eapply map_Forall_impl; [exact Hreg|]. simpl. intros; lia.
Qed.

Lemma addresses_fresh_check (w : World) :
  bool_decide (map_Forall (fun a (_ : Task) => (a < next_addr w)%nat)
                          (store w))
  && bool_decide (map_Forall (fun (_ : string) a => (a < next_addr w)%nat)
                             (background_tasks (self w))) = true ->
  addresses_fresh w.
Proof.
  intros H. apply andb_prop in H as [Hs Hr].
  split; eapply bool_decide_eq_true_1; eassumption.
Qed.

(** X23. In a world whose addresses are fresh, an accepted background
    submission keeps the addresses fresh and leaves every task registered
    under another id as it is: [get_background_task] gives it as
    before. *)
Theorem X23_submission_leaves_other_tasks
    (os : OS) (clock : Clock) (w : World) (command : string)
    (timeout_arg : option Z) (cwd : option string) (env : option Env)
    (shell : bool) (callback : option Callback) (id : string) :
  addresses_fresh w ->
  isAllowed (self w) command = true ->
  id <> task_id_of (clock (S (reads w))) ->
  let out := execute_command os clock w command timeout_arg true cwd env
                             shell callback in
  addresses_fresh out.1 /\
  get_background_task out.1 id = get_background_task w id.
Proof.
  intros Hfresh Hok Hid out. subst out.
  rewrite (execute_command_background _ _ _ _ _ _ _ _ _ Hok).
  split.
  - apply addresses_fresh_submit. exact Hfresh.
  - destruct Hfresh as [Hstore Hreg].
    unfold _execute_background, accepted, get_background_task, task_of.
    simpl. rewrite lookup_insert_ne by congruence.
    destruct (background_tasks (self w) !! id) as [a|] eqn:Ea;
      [|reflexivity].
    simpl. specialize (Hreg id a Ea). simpl in Hreg.
    rewrite lookup_insert_ne by lia. reflexivity.
Qed.

Lemma X23_submission_leaves_other_tasks_witness :
  get_background_task
    (execute_command quiet_os fine_clock two_tasks_world "ls" None true
                     None None true None).1 "bg_1700000000000004"
  = get_background_task two_tasks_world "bg_1700000000000004".
Proof.
  apply (X23_submission_leaves_other_tasks quiet_os fine_clock
           two_tasks_world "ls" None None None true None
           "bg_1700000000000004").
  - apply addresses_fresh_check. vm_compute. reflexivity.
  - reflexivity.
  - vm_compute. discriminate.
Defined.

(** ** Clearing, again *)

Lemma task_of_clear (w : World) (id : string) :
  task_of (clear_background_tasks w).1 id
  = match task_of w id with
    | Some task => if t_running task then Some task else None
    | None => None
    end.
Proof.
  rewrite clear_background_tasks_eq. simpl.
  set (ks := removed w (map_to_list (background_tasks (self w)))).
  pose proof (removed_registry w id) as Hks. fold ks in Hks.
  unfold task_of at 1. simpl.
  destruct (decide (id ∈ ks)) as [Hin|Hout].
  - rewrite (proj1 (lookup_delete_all ks _ id) Hin). simpl.
    apply Hks in Hin as (task & -> & ->). reflexivity.
  - rewrite (proj2 (lookup_delete_all ks _ id) Hout).
    fold (task_of w id).
    destruct (task_of w id) as [task|] eqn:E; [|reflexivity].
    destruct (t_running task) eqn:Hrun; [reflexivity|].
    exfalso. apply Hout, Hks. eauto.
Qed.

Lemma listing_lookup (w : World) (id : string) :
  get_background_tasks w !! id = view <$> task_of w id.
Proof.
  unfold get_background_tasks.
  rewrite tasks_loop by apply NoDup_fst_map_to_list.
  rewrite list_to_map_to_list. unfold task_of.
  now destruct (background_tasks (self w) !! id ≫= _).
Qed.

(** X24. After [clear_background_tasks] the listing of
    [get_background_tasks] holds exactly the tasks that were listed as
    running, with the same views. *)
Theorem X24_listing_after_clear (w : World) (id : string) :
  get_background_tasks (clear_background_tasks w).1 !! id
  = match get_background_tasks w !! id with
    | Some v => if v_running v then Some v else None
    | None => None
    end.
Proof.
  rewrite !listing_lookup, task_of_clear.
  destruct (task_of w id) as [task|]; [|reflexivity].
  simpl. now destruct (t_running task).
Qed.

(** X25. Clearing twice in a row: the second [clear_background_tasks]
    finds nothing to clear, returns the count 0 and leaves the registry
    as the first one left it. *)
Theorem X25_second_clear_finds_nothing (w : World) :
  let once := clear_background_tasks w in
  let twice := clear_background_tasks once.1 in
  twice.2 = ([], 0%nat) /\
  background_tasks (self twice.1) = background_tasks (self once.1).
Proof.
  intros once twice. subst twice.
  rewrite (clear_background_tasks_eq once.1).
  set (ks := removed once.1 (map_to_list (background_tasks (self once.1)))).
  assert (ks = []) as ->.
  { destruct ks as [|id ks'] eqn:E; [reflexivity|]. exfalso.
    assert (id ∈ ks) as Hin by (rewrite E; now left).
    apply removed_registry in Hin as (task & Htask & Hrun).
    unfold once in Htask. rewrite task_of_clear in Htask.
    destruct (task_of w id) as [t|]; [|discriminate].
    destruct (t_running t) eqn:Ht; [|discriminate].
    injection Htask as <-. congruence. }
  split; reflexivity.
Qed.

(** ** Fresh addresses are kept *)

Lemma map_Forall_delete_all (P : string -> nat -> Prop) (ks : list string) :
  forall m : gmap string nat,
    map_Forall P m -> map_Forall P (delete_all ks m).
Proof.
  unfold delete_all.
  induction ks as [|k ks IH]; intros m Hm; simpl; [exact Hm|].
  apply IH. now apply map_Forall_delete.
Qed.

(** The worlds built from a new one by the methods and by the watchdogs
    have fresh addresses. *)
Lemma addresses_fresh_kept :
  (forall timeout allow block cwd,
      addresses_fresh (new_world (__init__ timeout allow block cwd))) /\
  (forall os clock w command timeout_arg background cwd env shell callback,
      addresses_fresh w ->
      addresses_fresh
        (execute_command os clock w command timeout_arg background cwd env
                         shell callback).1) /\
  (forall os addr w,
      addresses_fresh w -> addresses_fresh (run_watchdog os addr w)) /\
  (forall w id now,
      addresses_fresh w ->
      addresses_fresh (stop_background_task w id now).1) /\
  (forall w,
      addresses_fresh w -> addresses_fresh (clear_background_tasks w).1).
Proof.
  conjs.
  - intros timeout allow block cwd. split; apply map_Forall_empty.
  - intros os clock w command timeout_arg background cwd env shell callback
      Hfresh.
    unfold execute_command.
    destruct (_is_command_allowed (self w) command) as [warning [|]];
      simpl; [|exact Hfresh].
    destruct background.
    + apply addresses_fresh_submit. exact Hfresh.
    + destruct (_execute_foreground _ _ _ _ _ _). exact Hfresh.
  - intros os addr w [Hstore Hreg]. unfold run_watchdog.
    destruct (store w !! addr) as [task|] eqn:E; [|now split].
    destruct (_execute_background_task os task) as [[tr task'] outcome].
    split; [|exact Hreg]. simpl.
    apply map_Forall_insert_2; [|exact Hstore].
    exact (Hstore addr task E).
  - intros w id now [Hstore Hreg]. unfold stop_background_task.
    destruct (background_tasks (self w) !! id) as [addr|]; [|now split].
    destruct (store w !! addr) as [task|] eqn:E; [|now split].
    destruct (t_running task); simpl; [|now split].
    assert (addresses_fresh
              (update_task addr (set_running false task) w)) as Hupd.
    { split; [|exact Hreg]. simpl.
      apply map_Forall_insert_2; [|exact Hstore].
      exact (Hstore addr task E). }
    destruct (t_process task) as [p|]; [|exact Hupd].
    destruct (gone_after_terminate p now); [exact Hupd | now split].
  - intros w [Hstore Hreg]. rewrite clear_background_tasks_eq.
    split; [exact Hstore|]. simpl.
    now apply map_Forall_delete_all.
Qed.

(** * Properties of the settings *)

Lemma merge_config_nil (base : list (string * Json)) :
  _merge_config base [] = base.
Proof. reflexivity. Qed.

Lemma merge_config_cons (base : list (string * Json)) (key : string)
    (value : Json) (rest : list (string * Json)) :
  _merge_config base ((key, value) :: rest)
  = _merge_config (dict_set key (merge_item base key value) base) rest.
Proof.
  unfold _merge_config, merge_item. simpl.
  destruct (dict_get key base) as [[]|]; destruct value; reflexivity.
Qed.

Lemma dict_get_set (key key' : string) (value : Json)
    (d : list (string * Json)) :
  dict_get key (dict_set key' value d)
  = if String.eqb key key' then Some value else dict_get key d.
Proof.
  induction d as [|[k v] d IH]; simpl.
  - reflexivity.
  - destruct (String.eqb_spec key' k) as [->|Hne]; simpl.
    + now destruct (String.eqb key k).
    + destruct (String.eqb_spec key k) as [->|Hne'].
      * destruct (String.eqb_spec k key'); congruence.
      * exact IH.
Qed.

Lemma dict_get_absent (key : string) (d : list (string * Json)) :
  ~ In key (List.map fst d) -> dict_get key d = None.
Proof.
  induction d as [|[k v] d IH]; simpl; [reflexivity|].
  intros Hout. destruct (String.eqb_spec key k) as [->|Hne].
  - exfalso. apply Hout. now left.
  - apply IH. intros Hin. apply Hout. now right.
Qed.

Lemma merge_config_get (base new : list (string * Json)) (key : string) :
  List.NoDup (List.map fst new) ->
  dict_get key (_merge_config base new)
  = match dict_get key new with
    | None => dict_get key base
    | Some value => Some (merge_item base key value)
    end.
Proof.
  intros Hnd. revert base.
  induction new as [|[k v] new IH]; intros base; [reflexivity|].
  apply List.NoDup_cons_iff in Hnd as [Hk Hnd].
  rewrite merge_config_cons, (IH Hnd). simpl.
  destruct (String.eqb_spec key k) as [->|Hne].
  - rewrite (dict_get_absent k new Hk), dict_get_set.
    now rewrite String.eqb_refl.
  - destruct (dict_get key new) as [value|].
    + unfold merge_item. rewrite dict_get_set.
      now destruct (String.eqb_spec key k).
    + rewrite dict_get_set. now destruct (String.eqb_spec key k).
Qed.

(** X26. What [_merge_config] leaves under a key, for a new
    configuration whose keys are all different: a key the new
    configuration does not have keeps the value of the base; a key it has
    gets the new value, except when both values are dicts, which are
    merged in the same way.  So no key of the base is ever lost. *)
Theorem X26_merge_config_lookup (new base : list (string * Json))
    (key : string) :
  List.NoDup (List.map fst new) ->
  dict_get key (_merge_config base new)
  = match dict_get key new with
    | None => dict_get key base
    | Some value => Some (merge_item base key value)
    end /\
  (dict_get key base <> None ->
   dict_get key (_merge_config base new) <> None).
Proof.
  intros Hnd. pose proof (merge_config_get base new key Hnd) as Hget.
  split; [exact Hget|].
  rewrite Hget. destruct (dict_get key new); congruence.
Qed.

Lemma X26_merge_config_lookup_witness :
  dict_get "tools"
           (_merge_config DEFAULT_CONFIG
                          [("tools", JDict [("timeout", JInt 60)])])
  = Some (JDict [("timeout", JInt 60);
                 ("allowed_commands", JList []);
                 ("blocked_commands",
                  JList [JStr "rm -rf /"; JStr "del /f /s /q"])]).
Proof.
  refine (proj1 (X26_merge_config_lookup
                   [("tools", JDict [("timeout", JInt 60)])] DEFAULT_CONFIG
                   "tools" _)).
  repeat constructor. intros [].
Defined.

(** X27. A configuration file that does not speak of
    ["blocked_commands"] leaves the default block-list in force: when
    the base has the default tools and the file has no ["tools"] entry,
    or has one that is a dict without ["blocked_commands"], the executor
    that [CommandHandler.__init__] builds from the merged settings has
    the block-list [["rm -rf /", "del /f /s /q"]]. *)
Theorem X27_default_block_list_survives_merge
    (base file : list (string * Json)) (tools : option ToolsSettings)
    (cwd : string) :
  dict_get "tools" base = Some (JDict default_tools) ->
  List.NoDup (List.map fst file) ->
  (dict_get "tools" file = None \/
   exists entries,
     dict_get "tools" file = Some (JDict entries) /\
     List.NoDup (List.map fst entries) /\
     dict_get "blocked_commands" entries = None) ->
  tools_of_settings (_merge_config base file) = Some tools ->
  blocked_commands (handler_command_executor tools cwd)
  = ["rm -rf /"; "del /f /s /q"] /\
  isAllowed (handler_command_executor tools cwd) "rm -rf /" = false.
Proof.
  intros Hbase Hnd Hfile Htools.
  assert (exists merged,
             dict_get "tools" (_merge_config base file)
             = Some (JDict merged) /\
             dict_get "blocked_commands" merged
             = Some (JList [JStr "rm -rf /"; JStr "del /f /s /q"]))
    as (merged & Hmerged & Hblocked).
  { pose proof (merge_config_get base file "tools" Hnd) as Hget.
    destruct Hfile as [Hnone|(entries & Hsome & Hnd' & Hb)].
    - rewrite Hnone in Hget. exists default_tools.
      split; [now rewrite Hget | reflexivity].
    - rewrite Hsome in Hget. unfold merge_item in Hget.
      rewrite Hbase in Hget.
      exists (_merge_config default_tools entries).
      split; [exact Hget|].
      rewrite (merge_config_get default_tools entries "blocked_commands"
                 Hnd').
      now rewrite Hb. }
  unfold tools_of_settings in Htools. rewrite Hmerged, Hblocked in Htools.
  simpl in Htools.
  destruct (timeout_entry _) as [t|]; [|discriminate].
  destruct (commands_entry _) as [a|]; [|discriminate].
  injection Htools as <-.
  assert (blocked_commands
            (handler_command_executor
               (Some (mkTools t a
                        (Some (Some ["rm -rf /"; "del /f /s /q"])))) cwd)
          = ["rm -rf /"; "del /f /s /q"]) as Hb by reflexivity.
  split; [exact Hb|].
  apply block_listed_denied. unfold block_listed. rewrite Hb.
  exists "rm -rf /", "". split; [now left | reflexivity].
Qed.

Lemma X27_default_block_list_survives_merge_witness :
  blocked_commands
    (handler_command_executor
       (Some (mkTools (Some 60) (Some (Some []))
                      (Some (Some ["rm -rf /"; "del /f /s /q"])))) "/home")
  = ["rm -rf /"; "del /f /s /q"].
Proof.
  refine (proj1 (X27_default_block_list_survives_merge DEFAULT_CONFIG
                   [("ui", JDict [("theme", JStr "dark")]);
                    ("tools", JDict [("timeout", JInt 60)])]
                   (Some (mkTools (Some 60) (Some (Some []))
                            (Some (Some ["rm -rf /"; "del /f /s /q"]))))
                   "/home" eq_refl _ _ eq_refl)).
  - repeat constructor; simpl; intuition discriminate.
  - right. exists [("timeout", JInt 60)].
    split; [reflexivity|]. split; [|reflexivity].
    repeat constructor. intros [].
Defined.
